(** * Verification of [services/gcp_toolkit.py]

    A shallow embedding of the Google Cloud Storage gateway: client
    initialisation from the environment, content-type guessing and the
    upload operation, together with the parts of the Python standard
    library whose behaviour the gateway inherits ([posixpath],
    [urllib.parse._splittype] and [mimetypes], CPython 3.11). *)

From stdpp Require Import base option list strings gmap.
From Stdlib Require Import ZArith Ascii String Lia.

Local Open Scope string_scope.
Local Open Scope Z_scope.

(** ** Python strings

    A [str] is modelled as a [string] of 8-bit characters.  [lower] is
    [str.lower] on ASCII strings: it lowers the letters A to Z and
    leaves every other character alone, so on a string with characters
    above 127 it is not Python's lowering; a property that rests on
    what [lower] returns is stated for ASCII strings ([is_ascii]). *)

Module Str.

Definition lower_ascii (c : ascii) : ascii :=
  let n := nat_of_ascii c in
  if ((65 <=? n) && (n <=? 90))%nat then ascii_of_nat (n + 32) else c.

Fixpoint lower (s : string) : string :=
  match s with
  | EmptyString => EmptyString
  | String c s' => String (lower_ascii c) (lower s')
  end.

(** Every character of [s] is below 128. *)
Fixpoint is_ascii (s : string) : bool :=
  match s with
  | EmptyString => true
  | String c s' => (nat_of_ascii c <? 128)%nat && is_ascii s'
  end.

Definition len (s : string) : Z := Z.of_nat (String.length s).

Fixpoint take (n : nat) (s : string) : string :=
  match n, s with
  | S n', String c s' => String c (take n' s')
  | _, _ => EmptyString
  end.

Fixpoint drop (n : nat) (s : string) : string :=
  match n, s with
  | S n', String _ s' => drop n' s'
  | _, _ => s
  end.

(** A slice bound, as Python normalises it: a negative bound counts
    from the end and is clipped at 0. *)
Definition bound (s : string) (i : Z) : nat :=
  Z.to_nat (if i <? 0 then Z.max 0 (len s + i) else i).

(** [s[:i]] and [s[i:]]. *)
Definition slice_to (s : string) (i : Z) : string := take (bound s i) s.
Definition slice_from (s : string) (i : Z) : string := drop (bound s i) s.

(** [s.find(c)]: index of the first occurrence of [c], or -1. *)
Fixpoint find (c : ascii) (s : string) : Z :=
  match s with
  | EmptyString => -1
  | String a s' =>
      if Ascii.eqb a c then 0
      else let r := find c s' in if r <? 0 then -1 else r + 1
  end.

(** [s.rfind(c)]: index of the last occurrence of [c], or -1. *)
Fixpoint rfind (c : ascii) (s : string) : Z :=
  match s with
  | EmptyString => -1
  | String a s' =>
      let r := rfind c s' in
      if 0 <=? r then r + 1 else if Ascii.eqb a c then 0 else -1
  end.

(** [c in s]. *)
Definition contains (c : ascii) (s : string) : bool := 0 <=? find c s.

(** [sub in s] for a substring. *)
Fixpoint has_substring (sub s : string) : bool :=
  String.prefix sub s ||
  match s with
  | EmptyString => false
  | String _ s' => has_substring sub s'
  end.

(** Every character of [s] is a dot. *)
Fixpoint all_dots (s : string) : bool :=
  match s with
  | EmptyString => true
  | String c s' => Ascii.eqb c "." && all_dots s'
  end.

End Str.

(** ** [posixpath]

    [os.path] on the POSIX systems the toolkit runs on. *)

Module posixpath.

Definition sep : ascii := "/"%char.
Definition extsep : ascii := "."%char.

(** [basename]: [i = p.rfind(sep) + 1; return p[i:]]. *)
Definition basename (p : string) : string :=
  let i := Str.rfind sep p + 1 in
  Str.slice_from p i.

(** The loop of [genericpath._splitext] that skips leading dots: it
    runs while [filenameIndex < dotIndex], here for [n] rounds, and
    answers [true] when it meets a character other than [extsep]. *)
Fixpoint skip_leading_dots (p : string) (filenameIndex n : nat) : bool :=
  match n with
  | O => false
  | S n' =>
      match String.get filenameIndex p with
      | Some c =>
          if Ascii.eqb c extsep
          then skip_leading_dots p (S filenameIndex) n'
          else true
      | None => true
      end
  end.

(** [genericpath._splitext(p, sep, None, extsep)]. *)
Definition splitext (p : string) : string * string :=
  let sepIndex := Str.rfind sep p in
  let dotIndex := Str.rfind extsep p in
  if (sepIndex <? dotIndex)
     && skip_leading_dots p (Z.to_nat (sepIndex + 1))
                          (Z.to_nat (dotIndex - (sepIndex + 1)))
  then (Str.slice_to p dotIndex, Str.slice_from p dotIndex)
  else (p, EmptyString).

End posixpath.

(** ** [urllib.parse._splittype] *)

Module urllib.

(** The longest prefix of characters other than slash and colon, and
    what follows it. *)
Fixpoint span_scheme (url : string) : string * string :=
  match url with
  | EmptyString => (EmptyString, EmptyString)
  | String c rest =>
      if Ascii.eqb c "/" || Ascii.eqb c ":" then (EmptyString, url)
      else let '(scheme, data) := span_scheme rest in (String c scheme, data)
  end.

(** [_splittype]: the regular expression matches, at the start of
    [url], a non-empty run of characters other than slash and colon,
    then a colon, then anything. *)
Definition _splittype (url : string) : option string * string :=
  match span_scheme url with
  | (String c scheme, String ":" data) => (Some (Str.lower (String c scheme)), data)
  | _ => (None, url)
  end.

End urllib.

(** ** [mimetypes] *)

Module mimetypes.

Definition suffix_map : gmap string string :=
  list_to_map [
    (".svgz", ".svg.gz");
    (".tgz", ".tar.gz");
    (".taz", ".tar.gz");
    (".tz", ".tar.gz");
    (".tbz2", ".tar.bz2");
    (".txz", ".tar.xz") ].

Definition encodings_map : gmap string string :=
  list_to_map [
    (".gz", "gzip");
    (".Z", "compress");
    (".bz2", "bzip2");
    (".xz", "xz");
    (".br", "br") ].

(** The built-in strict table [_types_map_default]; [mimetypes.init]
    may add the entries of the system's [mime.types] files to it, so
    the functions below take the table in force as an argument. *)
Definition _types_map_default : gmap string string :=
  list_to_map [
  (".js", "application/javascript");
  (".mjs", "application/javascript");
  (".json", "application/json");
  (".webmanifest", "application/manifest+json");
  (".doc", "application/msword");
  (".dot", "application/msword");
  (".wiz", "application/msword");
  (".nq", "application/n-quads");
  (".nt", "application/n-triples");
  (".bin", "application/octet-stream");
  (".a", "application/octet-stream");
  (".dll", "application/octet-stream");
  (".exe", "application/octet-stream");
  (".o", "application/octet-stream");
  (".obj", "application/octet-stream");
  (".so", "application/octet-stream");
  (".oda", "application/oda");
  (".pdf", "application/pdf");
  (".p7c", "application/pkcs7-mime");
  (".ps", "application/postscript");
  (".ai", "application/postscript");
  (".eps", "application/postscript");
  (".trig", "application/trig");
  (".m3u", "application/vnd.apple.mpegurl");
  (".m3u8", "application/vnd.apple.mpegurl");
  (".xls", "application/vnd.ms-excel");
  (".xlb", "application/vnd.ms-excel");
  (".ppt", "application/vnd.ms-powerpoint");
  (".pot", "application/vnd.ms-powerpoint");
  (".ppa", "application/vnd.ms-powerpoint");
  (".pps", "application/vnd.ms-powerpoint");
  (".pwz", "application/vnd.ms-powerpoint");
  (".wasm", "application/wasm");
  (".bcpio", "application/x-bcpio");
  (".cpio", "application/x-cpio");
  (".csh", "application/x-csh");
  (".dvi", "application/x-dvi");
  (".gtar", "application/x-gtar");
  (".hdf", "application/x-hdf");
  (".h5", "application/x-hdf5");
  (".latex", "application/x-latex");
  (".mif", "application/x-mif");
  (".cdf", "application/x-netcdf");
  (".nc", "application/x-netcdf");
  (".p12", "application/x-pkcs12");
  (".pfx", "application/x-pkcs12");
  (".ram", "application/x-pn-realaudio");
  (".pyc", "application/x-python-code");
  (".pyo", "application/x-python-code");
  (".sh", "application/x-sh");
  (".shar", "application/x-shar");
  (".swf", "application/x-shockwave-flash");
  (".sv4cpio", "application/x-sv4cpio");
  (".sv4crc", "application/x-sv4crc");
  (".tar", "application/x-tar");
  (".tcl", "application/x-tcl");
  (".tex", "application/x-tex");
  (".texi", "application/x-texinfo");
  (".texinfo", "application/x-texinfo");
  (".roff", "application/x-troff");
  (".t", "application/x-troff");
  (".tr", "application/x-troff");
  (".man", "application/x-troff-man");
  (".me", "application/x-troff-me");
  (".ms", "application/x-troff-ms");
  (".ustar", "application/x-ustar");
  (".src", "application/x-wais-source");
  (".xsl", "application/xml");
  (".rdf", "application/xml");
  (".wsdl", "application/xml");
  (".xpdl", "application/xml");
  (".zip", "application/zip");
  (".3gp", "audio/3gpp");
  (".3gpp", "audio/3gpp");
  (".3g2", "audio/3gpp2");
  (".3gpp2", "audio/3gpp2");
  (".aac", "audio/aac");
  (".adts", "audio/aac");
  (".loas", "audio/aac");
  (".ass", "audio/aac");
  (".au", "audio/basic");
  (".snd", "audio/basic");
  (".mp3", "audio/mpeg");
  (".mp2", "audio/mpeg");
  (".opus", "audio/opus");
  (".aif", "audio/x-aiff");
  (".aifc", "audio/x-aiff");
  (".aiff", "audio/x-aiff");
  (".ra", "audio/x-pn-realaudio");
  (".wav", "audio/x-wav");
  (".avif", "image/avif");
  (".bmp", "image/bmp");
  (".gif", "image/gif");
  (".ief", "image/ief");
  (".jpg", "image/jpeg");
  (".jpe", "image/jpeg");
  (".jpeg", "image/jpeg");
  (".heic", "image/heic");
  (".heif", "image/heif");
  (".png", "image/png");
  (".svg", "image/svg+xml");
  (".tiff", "image/tiff");
  (".tif", "image/tiff");
  (".ico", "image/vnd.microsoft.icon");
  (".ras", "image/x-cmu-raster");
  (".pnm", "image/x-portable-anymap");
  (".pbm", "image/x-portable-bitmap");
  (".pgm", "image/x-portable-graymap");
  (".ppm", "image/x-portable-pixmap");
  (".rgb", "image/x-rgb");
  (".xbm", "image/x-xbitmap");
  (".xpm", "image/x-xpixmap");
  (".xwd", "image/x-xwindowdump");
  (".eml", "message/rfc822");
  (".mht", "message/rfc822");
  (".mhtml", "message/rfc822");
  (".nws", "message/rfc822");
  (".css", "text/css");
  (".csv", "text/csv");
  (".html", "text/html");
  (".htm", "text/html");
  (".n3", "text/n3");
  (".txt", "text/plain");
  (".bat", "text/plain");
  (".c", "text/plain");
  (".h", "text/plain");
  (".ksh", "text/plain");
  (".pl", "text/plain");
  (".srt", "text/plain");
  (".rtx", "text/richtext");
  (".tsv", "text/tab-separated-values");
  (".vtt", "text/vtt");
  (".py", "text/x-python");
  (".etx", "text/x-setext");
  (".sgm", "text/x-sgml");
  (".sgml", "text/x-sgml");
  (".vcf", "text/x-vcard");
  (".xml", "text/xml");
  (".mp4", "video/mp4");
  (".mpeg", "video/mpeg");
  (".m1v", "video/mpeg");
  (".mpa", "video/mpeg");
  (".mpe", "video/mpeg");
  (".mpg", "video/mpeg");
  (".mov", "video/quicktime");
  (".qt", "video/quicktime");
  (".webm", "video/webm");
  (".avi", "video/x-msvideo");
  (".movie", "video/x-sgi-movie") ].

(** The [while] loop over [suffix_map], for at most [fuel] rounds;
    [None] when the rounds are used up before the loop exits. *)
Fixpoint suffix_loop (fuel : nat) (base ext : string) : option (string * string) :=
  match suffix_map !! Str.lower ext with
  | None => Some (base, ext)
  | Some repl =>
      match fuel with
      | O => None
      | S fuel' =>
          let '(base', ext') := posixpath.splitext (base ++ repl) in
          suffix_loop fuel' base' ext'
      end
  end.

(** The branch of [guess_type] for [data:] URLs. *)
Definition guess_data_url (url : string) : option string * option string :=
  let comma := Str.find "," url in
  if comma <? 0 then (None, None)
  else
    let semi := Str.find ";" (Str.slice_to url comma) in
    let type := if 0 <=? semi then Str.slice_to url semi
                else Str.slice_to url comma in
    let type := if Str.contains "=" type || negb (Str.contains "/" type)
                then "text/plain" else type in
    (Some type, None).

(** What [guess_type] does once the suffix loop has left [(base, ext)];
    [strict] is left at its default [True]. *)
Definition guess_after_suffix (types_map : gmap string string)
    (base ext : string) : option string * option string :=
  let '(encoding, base, ext) :=
    match encodings_map !! ext with
    | Some enc => let '(base', ext') := posixpath.splitext base in
                  (Some enc, base', ext')
    | None => (None, base, ext)
    end in
  let ext := Str.lower ext in
  match types_map !! ext with
  | Some t => (Some t, encoding)
  | None => (None, encoding)
  end.

Definition guess_type_fuel (fuel : nat) (types_map : gmap string string)
    (url : string) : option (option string * option string) :=
  let '(scheme, url) := urllib._splittype url in
  if bool_decide (scheme = Some "data") then Some (guess_data_url url)
  else
    let '(base, ext) := posixpath.splitext url in
    match suffix_loop fuel base ext with
    | Some (base, ext) => Some (guess_after_suffix types_map base ext)
    | None => None
    end.

(** [mimetypes.guess_type(url)]: one round of the suffix loop always
    suffices ([guess_type_fuel_enough] below), so the function is the
    value of [guess_type_fuel] at any positive fuel. *)
Definition guess_type (types_map : gmap string string) (url : string)
    : option string * option string :=
  default (None, None) (guess_type_fuel 1 types_map url).

End mimetypes.


(** ** Exceptions and outcomes

    Every exception of the model is an instance of Python's [Exception]
    (what [except Exception] catches): the errors of [json], of
    [google.oauth2] and of [google.cloud.storage] all are.  An exception
    is known by its class and by its text, [str(e)]. *)

Record exception := { exc_type : string; exc_str : string }.

Definition ValueError (msg : string) : exception :=
  {| exc_type := "ValueError"; exc_str := msg |}.

Inductive outcome (A : Type) : Type :=
| Return (a : A)
| Raise (e : exception).
Arguments Return {A} a.
Arguments Raise {A} e.

(** ** Logging: the calls made on [logger], in order *)

Inductive level := INFO | WARNING | ERROR.

Record log_record := { levelname : level; message : string }.

(** ** Objects of [google.cloud.storage] *)

Record Bucket (client : Type) := {
  bucket_client : client;
  bucket_name : option string
}.
Arguments bucket_client {client} _.
Arguments bucket_name {client} _.

Record Blob (client : Type) := {
  blob_bucket : Bucket client;
  blob_name : string;
  content_type : option string
}.
Arguments blob_bucket {client} _.
Arguments blob_name {client} _.
Arguments content_type {client} _.

(** ** The libraries the module calls

    [json_loads], [from_service_account_info] and [storage_Client] build
    values or raise; [validate_bucket_name] is the check of the name
    that the constructor of a bucket handle makes, raising for a name
    it rejects (one that does not start and end with a letter or a
    digit, or the empty name); [upload_from_filename] acts on the
    [world] (the local files and the storage service); [types_map] is
    the strict table of the [mimetypes] database in force. *)

Class Libraries := {
  json : Type;
  credentials : Type;
  client : Type;
  world : Type;
  json_loads : string -> outcome json;
  from_service_account_info : json -> list string -> outcome credentials;
  storage_Client : credentials -> outcome client;
  validate_bucket_name : option string -> outcome unit;
  upload_from_filename : Blob client -> string -> world -> outcome unit * world;
  public_url : Blob client -> string;
  types_map : gmap string string
}.

(** An argument with a default value: left out by the caller, or passed. *)
Inductive argument (A : Type) : Type :=
| Omitted
| Passed (a : A).
Arguments Omitted {A}.
Arguments Passed {A} a.

(** [str(v)], as an f-string formats a value that is [None] or a [str]. *)
Definition format (v : option string) : string :=
  match v with
  | Some s => s
  | None => "None"
  end.

(** Python truthiness of a value that is [None] or a [str]. *)
Definition truthy (v : option string) : bool :=
  match v with
  | None | Some EmptyString => false
  | Some _ => true
  end.

Section Gateway.
Context {L : Libraries}.

(** The names the module binds at import. *)
Record module_globals := {
  GCP_BUCKET_NAME : option string;
  gcs_client : option client;
  (** the default of [bucket_name], evaluated when [def upload_to_gcs] runs *)
  upload_to_gcs_defaults : option string
}.

Record process := {
  environ : gmap string string;
  globals : module_globals;
  records : list log_record;
  transfers : list (Blob client * string);
  backend : world
}.

Definition with_globals (g : module_globals) (st : process) : process :=
  {| environ := environ st; globals := g; records := records st;
     transfers := transfers st; backend := backend st |}.

Definition with_environ (env : gmap string string) (st : process) : process :=
  {| environ := env; globals := globals st; records := records st;
     transfers := transfers st; backend := backend st |}.

Definition emit (r : log_record) (st : process) : process :=
  {| environ := environ st; globals := globals st;
     records := records st ++ [r];
     transfers := transfers st; backend := backend st |}.

Definition transferred (b : Blob client) (file_path : string) (w : world)
    (st : process) : process :=
  {| environ := environ st; globals := globals st; records := records st;
     transfers := transfers st ++ [(b, file_path)]; backend := w |}.

(** *** The monad of module code: process state and exceptions *)

Definition M (A : Type) : Type := process -> outcome A * process.

#[local] Instance M_ret : MRet M := fun A a st => (Return a, st).
#[local] Instance M_bind : MBind M := fun A B f m st =>
  match m st with
  | (Return a, st') => f a st'
  | (Raise e, st') => (Raise e, st')
  end.

Definition raise {A} (e : exception) : M A := fun st => (Raise e, st).

Definition lift {A} (o : outcome A) : M A := fun st => (o, st).

Definition try_except {A} (body : M A) (handler : exception -> M A) : M A :=
  fun st =>
    match body st with
    | (Return a, st') => (Return a, st')
    | (Raise e, st') => handler e st'
    end.

Definition read_globals : M module_globals := fun st => (Return (globals st), st).

Definition assign_GCP_BUCKET_NAME (v : option string) : M unit :=
  fun st =>
    (Return tt,
     with_globals {| GCP_BUCKET_NAME := v;
                     gcs_client := gcs_client (globals st);
                     upload_to_gcs_defaults := upload_to_gcs_defaults (globals st) |} st).

Definition assign_gcs_client (v : option client) : M unit :=
  fun st =>
    (Return tt,
     with_globals {| GCP_BUCKET_NAME := GCP_BUCKET_NAME (globals st);
                     gcs_client := v;
                     upload_to_gcs_defaults := upload_to_gcs_defaults (globals st) |} st).

Definition bind_upload_to_gcs_defaults (v : option string) : M unit :=
  fun st =>
    (Return tt,
     with_globals {| GCP_BUCKET_NAME := GCP_BUCKET_NAME (globals st);
                     gcs_client := gcs_client (globals st);
                     upload_to_gcs_defaults := v |} st).

Definition os_getenv (name : string) : M (option string) :=
  fun st => (Return (environ st !! name), st).

Definition logger_info (msg : string) : M unit :=
  fun st => (Return tt, emit {| levelname := INFO; message := msg |} st).
Definition logger_warning (msg : string) : M unit :=
  fun st => (Return tt, emit {| levelname := WARNING; message := msg |} st).
Definition logger_error (msg : string) : M unit :=
  fun st => (Return tt, emit {| levelname := ERROR; message := msg |} st).

(** [blob.upload_from_filename(file_path)]: the one call that reaches
    the storage service; each one is recorded in [transfers]. *)
Definition blob_upload_from_filename (b : Blob client) (file_path : string) : M unit :=
  fun st =>
    let '(r, w) := upload_from_filename b file_path (backend st) in
    (r, transferred b file_path w st).

(** [client.bucket(name)]: the handle is built when the name passes the
    check, without a call to the service; otherwise the check raises. *)
Definition client_bucket (c : client) (name : option string)
    : outcome (Bucket client) :=
  match validate_bucket_name name with
  | Return _ => Return {| bucket_client := c; bucket_name := name |}
  | Raise e => Raise e
  end.

Definition bucket_blob (b : Bucket client) (name : string) : Blob client :=
  {| blob_bucket := b; blob_name := name; content_type := None |}.

Definition set_content_type (b : Blob client) (ct : option string) : Blob client :=
  {| blob_bucket := blob_bucket b; blob_name := blob_name b; content_type := ct |}.

(** Lines 89 to 93 of [upload_to_gcs]: the blob of the bucket named
    after the file's base name, and its content type when one was
    guessed.  None of these calls reaches the service. *)
Definition prepare_blob (bucket : Bucket client)
    (file_path : string) (content_type : option string) : Blob client :=
  let blob := bucket_blob bucket (posixpath.basename file_path) in
  if truthy content_type then set_content_type blob content_type else blob.

(** *** The module *)

Definition GCS_SCOPES : list string :=
  ["https://www.googleapis.com/auth/devstorage.full_control"].

Definition initialize_gcp_client : M (option client) :=
  GCP_SA_CREDENTIALS ← os_getenv "GCP_SA_CREDENTIALS";
  match GCP_SA_CREDENTIALS with
  | None | Some EmptyString => mret None
  | Some blob =>
      try_except
        (credentials_info ← lift (json_loads blob);
         gcs_credentials ← lift (from_service_account_info credentials_info GCS_SCOPES);
         c ← lift (storage_Client gcs_credentials);
         mret (Some c))
        (fun e =>
           logger_error ("Failed to initialize GCS client: " ++ exc_str e);;
           mret None)
  end.

Definition guess_content_type (file_path : string) : M (option string) :=
  let '(content_type, _) := mimetypes.guess_type types_map file_path in
  (if negb (truthy content_type)
   then logger_warning ("Could not determine content type for " ++ file_path
                        ++ ", this may default to application/octet-stream")
   else mret tt);;
  mret content_type.

Definition upload_to_gcs (file_path : string)
    (bucket_name : argument (option string)) : M string :=
  g ← read_globals;
  let bucket_name :=
    match bucket_name with
    | Passed b => b
    | Omitted => upload_to_gcs_defaults g
    end in
  match gcs_client g with
  | None => raise (ValueError "GCS client is not initialized. Skipping file upload.")
  | Some gcs_client =>
      try_except
        (content_type ← guess_content_type file_path;
         logger_info ("Uploading file to Google Cloud Storage: " ++ file_path);;
         (if truthy content_type
          then logger_info ("Using content type: " ++ format content_type)
          else mret tt);;
         bucket ← lift (client_bucket gcs_client bucket_name);
         let blob := prepare_blob bucket file_path content_type in
         blob_upload_from_filename blob file_path;;
         logger_info ("File uploaded successfully to GCS: " ++ public_url blob);;
         mret (public_url blob))
        (fun e =>
           logger_error ("Error uploading file to GCS: " ++ exc_str e);;
           raise e)
  end.

(** The module body, as [import] runs it: lines 31, 33 and 57 assign
    the globals, and the [def] of line 76 evaluates the default of
    [bucket_name]. *)
Definition import_module : M unit :=
  bucket ← os_getenv "GCP_BUCKET_NAME";
  assign_GCP_BUCKET_NAME bucket;;
  assign_gcs_client None;;
  c ← initialize_gcp_client;
  assign_gcs_client c;;
  g ← read_globals;
  bind_upload_to_gcs_defaults (GCP_BUCKET_NAME g).

(** *** What the rest of the process can do after the import *)

Inductive operation :=
| Call_initialize_gcp_client
| Call_guess_content_type (file_path : string)
| Call_upload_to_gcs (file_path : string) (bucket_name : argument (option string))
| Setenv (name value : string)
| Unsetenv (name : string).

Definition step (op : operation) (st : process) : process :=
  match op with
  | Call_initialize_gcp_client => snd (initialize_gcp_client st)
  | Call_guess_content_type p => snd (guess_content_type p st)
  | Call_upload_to_gcs p b => snd (upload_to_gcs p b st)
  | Setenv k v => with_environ (<[k := v]> (environ st)) st
  | Unsetenv k => with_environ (delete k (environ st)) st
  end.

Definition run (ops : list operation) (st : process) : process :=
  fold_left (fun s op => step op s) ops st.

(** *** Notions used to state the properties *)

(** The credential blob fails to yield a client with error [e]: JSON
    parsing, the construction of the credentials or that of the client
    raises [e]. *)
Inductive construction_fails (blob : string) (e : exception) : Prop :=
| fails_json :
    json_loads blob = Raise e -> construction_fails blob e
| fails_credentials info :
    json_loads blob = Return info ->
    from_service_account_info info GCS_SCOPES = Raise e ->
    construction_fails blob e
| fails_client info creds :
    json_loads blob = Return info ->
    from_service_account_info info GCS_SCOPES = Return creds ->
    storage_Client creds = Raise e ->
    construction_fails blob e.

Inductive construction_yields (blob : string) (c : client) : Prop :=
| yields_client info creds :
    json_loads blob = Return info ->
    from_service_account_info info GCS_SCOPES = Return creds ->
    storage_Client creds = Return c ->
    construction_yields blob c.

(** The bucket an upload call names: the argument when passed, the
    default bound at the [def] otherwise. *)
Definition chosen_bucket (st : process) (bucket_name : argument (option string))
    : option string :=
  match bucket_name with
  | Passed b => b
  | Omitted => upload_to_gcs_defaults (globals st)
  end.

(** The content type guessed for a path, and the blob an enabled
    upload hands to the service once the bucket name has passed the
    check. *)
Definition guessed (file_path : string) : option string :=
  fst (mimetypes.guess_type types_map file_path).

Definition target (st : process) (c : client) (file_path : string)
    (bucket_name : argument (option string)) : Blob client :=
  prepare_blob {| bucket_client := c; bucket_name := chosen_bucket st bucket_name |}
    file_path (guessed file_path).

Definition unknown_type_warning (file_path : string) : log_record :=
  {| levelname := WARNING;
     message := "Could not determine content type for " ++ file_path
                ++ ", this may default to application/octet-stream" |}.

(** The records an enabled upload logs before the transfer. *)
Definition preamble (file_path : string) : list log_record :=
  (if truthy (guessed file_path) then [] else [unknown_type_warning file_path])
  ++ [{| levelname := INFO;
         message := "Uploading file to Google Cloud Storage: " ++ file_path |}]
  ++ (if truthy (guessed file_path)
      then [{| levelname := INFO;
               message := "Using content type: " ++ format (guessed file_path) |}]
      else []).

Definition not_initialized : exception :=
  ValueError "GCS client is not initialized. Skipping file upload.".

(** A log message carries the context of an upload when it names both
    the file path and the bucket. *)
Definition carries_context (file_path bucket : string) (msg : string) : bool :=
  Str.has_substring file_path msg && Str.has_substring bucket msg.

(** Classes of operations, and the number of upload calls in a run. *)
Definition is_upload (op : operation) : bool :=
  match op with
  | Call_upload_to_gcs _ _ => true
  | _ => false
  end.

Definition changes_environ (op : operation) : bool :=
  match op with
  | Setenv _ _ | Unsetenv _ => true
  | _ => false
  end.

Definition uploads_in (ops : list operation) : nat :=
  List.length (List.filter is_upload ops).

(** The operation is an upload call that gets as far as the transfer:
    the gateway is enabled and the bucket name passes the check. *)
Definition requests_transfer (st : process) (op : operation) : bool :=
  match op with
  | Call_upload_to_gcs _ b =>
      match gcs_client (globals st), validate_bucket_name (chosen_bucket st b) with
      | Some _, Return _ => true
      | _, _ => false
      end
  | _ => false
  end.

End Gateway.

(** ** A storage service for tests

    A stand-in for the libraries, in the manner of a test double: the
    world holds the local files and the stored objects, a transfer
    writes the object under (bucket, name) whatever was there before,
    and [fault] makes every transfer fail with a chosen error. *)

Module Fake.

Record stored := { data : string; stored_type : option string }.

Record fake_world := {
  local_files : gmap string string;
  objects : gmap (string * string) stored;
  fault : option exception
}.

Definition loads (s : string) : outcome string :=
  if String.prefix "{" s then Return s
  else Raise {| exc_type := "JSONDecodeError";
                exc_str := "Expecting value: line 1 column 1 (char 0)" |}.

Definition service_account (info : string) (scopes : list string) : outcome string :=
  if Str.has_substring "private_key" info then Return info
  else Raise {| exc_type := "MalformedError";
                exc_str := "Service account info was not in the expected format" |}.

Definition upload (b : Blob string) (file_path : string) (w : fake_world)
    : outcome unit * fake_world :=
  match fault w with
  | Some e => (Raise e, w)
  | None =>
      match local_files w !! file_path, bucket_name (blob_bucket b) with
      | None, _ =>
          (Raise {| exc_type := "FileNotFoundError";
                    exc_str := "[Errno 2] No such file or directory: " ++ file_path |}, w)
      | Some _, None =>
          (Raise (ValueError "Cannot determine path without bucket name."), w)
      | Some bytes, Some bucket =>
          (Return tt,
           {| local_files := local_files w;
              objects := <[(bucket, blob_name b) :=
                             {| data := bytes; stored_type := content_type b |}]>
                           (objects w);
              fault := fault w |})
      end
  end.

Definition alnum (c : ascii) : bool :=
  let n := nat_of_ascii c in
  ((48 <=? n) && (n <=? 57) || (65 <=? n) && (n <=? 90)
   || (97 <=? n) && (n <=? 122))%nat.

Fixpoint last_char (c : ascii) (s : string) : ascii :=
  match s with
  | EmptyString => c
  | String c' s' => last_char c' s'
  end.

Definition validate (name : option string) : outcome unit :=
  match name with
  | None => Return tt
  | Some EmptyString =>
      Raise {| exc_type := "IndexError"; exc_str := "string index out of range" |}
  | Some (String c rest) =>
      if alnum c && alnum (last_char c rest) then Return tt
      else Raise (ValueError "Bucket names must start and end with a number or letter.")
  end.

Definition url (b : Blob string) : string :=
  "https://storage.googleapis.com/" ++ format (bucket_name (blob_bucket b))
    ++ "/" ++ blob_name b.

Definition libraries_with (table : gmap string string) : Libraries := {|
  json := string;
  credentials := string;
  client := string;
  world := fake_world;
  json_loads := loads;
  from_service_account_info := service_account;
  storage_Client := fun c => Return c;
  validate_bucket_name := validate;
  upload_from_filename := upload;
  public_url := url;
  types_map := table
|}.

#[export] Instance libraries : Libraries :=
  libraries_with mimetypes._types_map_default.

(** A process about to import the module, with [table] as the type
    table of [mimetypes]. *)
Definition boot_with (table : gmap string string)
    (env : list (string * string)) (files : list (string * string))
    (fault : option exception) : @process (libraries_with table) :=
  @Build_process (libraries_with table)
    (list_to_map env)
    (@Build_module_globals (libraries_with table) None None None)
    [] []
    {| local_files := list_to_map files; objects := ∅; fault := fault |}.

Definition boot := boot_with mimetypes._types_map_default.

(** The process once the module is imported. *)
Definition booted env files fault : process :=
  snd (import_module (boot env files fault)).

Definition good_env : list (string * string) :=
  [("GCP_SA_CREDENTIALS", "{private_key: k}"); ("GCP_BUCKET_NAME", "media")].

Definition bad_env : list (string * string) :=
  [("GCP_SA_CREDENTIALS", "not json"); ("GCP_BUCKET_NAME", "media")].

Definition clips : list (string * string) :=
  [("/tmp/a/clip.mp4", "first take"); ("/tmp/b/clip.mp4", "second take")].

Definition Forbidden : exception :=
  {| exc_type := "Forbidden"; exc_str := "403 Permission denied" |}.

(** The default table with an entry registered for the compound
    extension [.tar.gz]. *)
Definition table_with_tar_gz : gmap string string :=
  <[".tar.gz" := "application/x-gtar-compressed"]> mimetypes._types_map_default.

End Fake.


(** * Properties *)

(** ** Strings *)

Section StrFacts.
Implicit Types (c a : ascii) (s t : string).

Lemma len_cons a s : Str.len (String a s) = Str.len s + 1.
Proof. unfold Str.len. cbn [String.length]. lia. Qed.

Lemma len_nonneg s : 0 <= Str.len s.
Proof. unfold Str.len. lia. Qed.

Lemma str_app_nil_l t : EmptyString ++ t = t.
Proof. reflexivity. Qed.

Lemma str_app_cons a s t : String a s ++ t = String a (s ++ t).
Proof. reflexivity. Qed.

Lemma len_app s t : Str.len (s ++ t) = Str.len s + Str.len t.
Proof.
  induction s as [|a s IH]; rewrite ?str_app_nil_l, ?str_app_cons.
  - change (Str.len EmptyString) with 0. lia.
  - rewrite !len_cons, IH. lia.
Qed.

Lemma str_app_assoc s t u : (s ++ t) ++ u = s ++ (t ++ u).
Proof.
  induction s as [|a s IH]; rewrite ?str_app_nil_l, ?str_app_cons; [reflexivity | now rewrite IH].
Qed.

Lemma find_lower_bound c s : -1 <= Str.find c s.
Proof.
  induction s as [|a s IH]; simpl; [lia|].
  destruct (Ascii.eqb a c); [lia|].
  destruct (Str.find c s <? 0) eqn:E; [lia|]. apply Z.ltb_ge in E. lia.
Qed.

Lemma rfind_bounds c s : -1 <= Str.rfind c s < Str.len s.
Proof.
  induction s as [|a s IH]; simpl.
  - change (Str.len EmptyString) with 0. lia.
  - rewrite len_cons.
    destruct (0 <=? Str.rfind c s) eqn:E.
    + apply Z.leb_le in E. lia.
    + destruct (Ascii.eqb a c); lia.
Qed.

Lemma rfind_app_present c s t :
  0 <= Str.rfind c t -> Str.rfind c (s ++ t) = Str.len s + Str.rfind c t.
Proof.
  intros Ht. induction s as [|a s IH]; rewrite ?str_app_nil_l, ?str_app_cons; simpl.
  - change (Str.len EmptyString) with 0. lia.
  - rewrite IH, len_cons.
    pose proof (len_nonneg s).
    destruct (0 <=? Str.len s + Str.rfind c t) eqn:E; [lia|].
    apply Z.leb_gt in E. lia.
Qed.

Lemma rfind_app_absent c s t :
  Str.rfind c t = -1 -> Str.rfind c (s ++ t) = Str.rfind c s.
Proof.
  intros Ht. induction s as [|a s IH]; rewrite ?str_app_nil_l, ?str_app_cons; simpl; [assumption|].
  now rewrite IH.
Qed.

Lemma contains_cons c a s :
  Str.contains c (String a s) = Ascii.eqb a c || Str.contains c s.
Proof.
  unfold Str.contains. simpl.
  destruct (Ascii.eqb a c); [reflexivity|]. simpl.
  pose proof (find_lower_bound c s).
  destruct (Str.find c s <? 0) eqn:E.
  - apply Z.ltb_lt in E. symmetry. apply Z.leb_gt. lia.
  - apply Z.ltb_ge in E. transitivity true; [|symmetry]; apply Z.leb_le; lia.
Qed.

Lemma contains_app c s t :
  Str.contains c (s ++ t) = Str.contains c s || Str.contains c t.
Proof.
  induction s as [|a s IH]; rewrite ?str_app_nil_l, ?str_app_cons; [reflexivity|].
  rewrite !contains_cons, IH. now rewrite orb_assoc.
Qed.

Lemma rfind_absent c s : Str.contains c s = false -> Str.rfind c s = -1.
Proof.
  induction s as [|a s IH]; [reflexivity|].
  rewrite contains_cons. intros [Ha Hs]%orb_false_iff.
  simpl. rewrite (IH Hs), Ha. reflexivity.
Qed.

Lemma rfind_head c s : Str.contains c s = false -> Str.rfind c (String c s) = 0.
Proof.
  intros H. simpl. rewrite (rfind_absent _ _ H), Ascii.eqb_refl. reflexivity.
Qed.

Lemma take_app_length s t : Str.take (String.length s) (s ++ t) = s.
Proof.
  induction s as [|a s IH]; rewrite ?str_app_nil_l, ?str_app_cons; simpl;
    [now destruct t | now rewrite IH].
Qed.

Lemma drop_app_length s t : Str.drop (String.length s) (s ++ t) = t.
Proof.
  induction s as [|a s IH]; rewrite ?str_app_nil_l, ?str_app_cons; simpl;
    [now destruct t | assumption].
Qed.

Lemma bound_len s t : Str.bound (s ++ t) (Str.len s) = String.length s.
Proof.
  unfold Str.bound. pose proof (len_nonneg s).
  destruct (Str.len s <? 0) eqn:E; [apply Z.ltb_lt in E; lia|].
  unfold Str.len. apply Nat2Z.id.
Qed.

Lemma slice_to_app s t : Str.slice_to (s ++ t) (Str.len s) = s.
Proof. unfold Str.slice_to. rewrite bound_len. apply take_app_length. Qed.

Lemma slice_from_app s t : Str.slice_from (s ++ t) (Str.len s) = t.
Proof. unfold Str.slice_from. rewrite bound_len. apply drop_app_length. Qed.

Lemma get_app_length s a t : String.get (String.length s) (s ++ String a t) = Some a.
Proof.
  induction s as [|b s IH]; rewrite ?str_app_nil_l, ?str_app_cons; simpl;
    [reflexivity | assumption].
Qed.

End StrFacts.

(** ** [posixpath] *)

Section PathFacts.
Implicit Types (c : ascii) (p pre name e : string).

Lemma skip_leading_dots_hit p n : forall start i c,
  (start <= i < start + n)%nat -> String.get i p = Some c -> c <> posixpath.extsep ->
  posixpath.skip_leading_dots p start n = true.
Proof.
  induction n as [|n IH]; intros start i c Hi Hget Hc; [lia|].
  simpl. destruct (String.get start p) as [c0|] eqn:E; [|reflexivity].
  destruct (Ascii.eqb c0 posixpath.extsep) eqn:E0; [|reflexivity].
  apply Ascii.eqb_eq in E0. subst c0.
  apply (IH (S start) i c); [|assumption|assumption].
  assert (i <> start) by (intros ->; congruence). lia.
Qed.

(** A file name that starts with a character other than a dot, followed
    by one extension, splits at that extension, whatever the directory
    part [pre] is. *)
Lemma splitext_stem pre c name e :
  c <> "."%char ->
  Str.contains "/" (String c name) = false ->
  Str.contains "/" e = false ->
  Str.contains "." e = false ->
  posixpath.splitext (pre ++ String c name ++ String "." e)
  = (pre ++ String c name, String "."%char e).
Proof.
  intros Hc Hname Hes Hed.
  set (q := pre ++ String c name).
  assert (Hq : Str.len q = Str.len pre + Str.len name + 1)
    by (unfold q; rewrite len_app, len_cons; lia).
  replace (pre ++ String c name ++ String "." e) with (q ++ String "." e)
    by (unfold q; apply str_app_assoc).
  assert (Hsep : Str.rfind "/" (q ++ String "." e) = Str.rfind "/" pre).
  { rewrite rfind_app_absent.
    - unfold q. apply rfind_app_absent, rfind_absent, Hname.
    - apply rfind_absent. rewrite contains_cons, Hes. reflexivity. }
  assert (Hdot : Str.rfind "." (q ++ String "." e) = Str.len q).
  { rewrite rfind_app_present; rewrite (rfind_head _ _ Hed); lia. }
  unfold posixpath.splitext, posixpath.sep, posixpath.extsep.
  rewrite Hsep, Hdot.
  pose proof (rfind_bounds "/" pre) as Hb.
  pose proof (len_nonneg name) as Hn.
  replace (Str.rfind "/" pre <? Str.len q) with true
    by (symmetry; apply Z.ltb_lt; lia).
  rewrite (skip_leading_dots_hit _ _ _ (String.length pre) c).
  - simpl. now rewrite slice_to_app, slice_from_app.
  - unfold Str.len in *. lia.
  - unfold q. rewrite str_app_assoc, str_app_cons. apply get_app_length.
  - exact Hc.
Qed.

Lemma basename_join pre name :
  Str.contains "/" name = false ->
  posixpath.basename (pre ++ String "/" name) = name.
Proof.
  intros H. unfold posixpath.basename, posixpath.sep.
  rewrite rfind_app_present; rewrite (rfind_head _ _ H); [|lia].
  replace (pre ++ String "/" name) with ((pre ++ "/") ++ name)
    by (now rewrite str_app_assoc).
  replace (Str.len pre + 0 + 1) with (Str.len (pre ++ "/"))
    by (rewrite len_app; unfold Str.len; simpl; lia).
  apply slice_from_app.
Qed.

Lemma drop_rfind_absent c p :
  Str.contains c (Str.drop (Z.to_nat (Str.rfind c p + 1)) p) = false.
Proof.
  induction p as [|a p IH]; [reflexivity|].
  simpl Str.rfind. pose proof (rfind_bounds c p) as Hb.
  destruct (0 <=? Str.rfind c p) eqn:E.
  - apply Z.leb_le in E.
    replace (Z.to_nat (Str.rfind c p + 1 + 1)) with (S (Z.to_nat (Str.rfind c p + 1))) by lia.
    exact IH.
  - apply Z.leb_gt in E. assert (Hr : Str.rfind c p = -1) by lia.
    rewrite Hr in IH. simpl in IH.
    destruct (Ascii.eqb a c) eqn:Ea; simpl.
    + exact IH.
    + rewrite contains_cons, Ea. exact IH.
Qed.

(** The base name holds no directory separator. *)
Lemma basename_no_sep p : Str.contains "/" (posixpath.basename p) = false.
Proof.
  unfold posixpath.basename, Str.slice_from, Str.bound.
  pose proof (rfind_bounds posixpath.sep p).
  destruct (Str.rfind posixpath.sep p + 1 <? 0) eqn:E; [apply Z.ltb_lt in E; lia|].
  apply drop_rfind_absent.
Qed.

End PathFacts.

(** ** [mimetypes] *)

Section MimeFacts.
Implicit Types (tm : gmap string string) (pre name e base ext : string).

Lemma suffix_map_range k v :
  mimetypes.suffix_map !! k = Some v ->
  v ∈ [".svg.gz"; ".tar.gz"; ".tar.bz2"; ".tar.xz"].
Proof.
  unfold mimetypes.suffix_map. intros H%elem_of_list_to_map_2.
  repeat (apply elem_of_cons in H as [H|H]; [injection H as _ <-; set_solver|]).
  now apply elem_of_nil in H.
Qed.

(** After one replacement the extension is that of an encoding, which
    [suffix_map] does not hold: the loop stops. *)
Lemma suffix_round base repl :
  repl ∈ [".svg.gz"; ".tar.gz"; ".tar.bz2"; ".tar.xz"] ->
  mimetypes.suffix_map !! Str.lower (snd (posixpath.splitext (base ++ repl))) = None.
Proof.
  intros H.
  repeat (apply elem_of_cons in H as [->|H]).
  - replace (base ++ ".svg.gz") with ((base ++ ".") ++ String "s" "vg" ++ String "." "gz")
      by (now rewrite str_app_assoc).
    rewrite splitext_stem by (reflexivity || discriminate). reflexivity.
  - replace (base ++ ".tar.gz") with ((base ++ ".") ++ String "t" "ar" ++ String "." "gz")
      by (now rewrite str_app_assoc).
    rewrite splitext_stem by (reflexivity || discriminate). reflexivity.
  - replace (base ++ ".tar.bz2") with ((base ++ ".") ++ String "t" "ar" ++ String "." "bz2")
      by (now rewrite str_app_assoc).
    rewrite splitext_stem by (reflexivity || discriminate). reflexivity.
  - replace (base ++ ".tar.xz") with ((base ++ ".") ++ String "t" "ar" ++ String "." "xz")
      by (now rewrite str_app_assoc).
    rewrite splitext_stem by (reflexivity || discriminate). reflexivity.
  - now apply elem_of_nil in H.
Qed.

Lemma suffix_loop_stop n base ext :
  mimetypes.suffix_map !! Str.lower ext = None ->
  mimetypes.suffix_loop n base ext = Some (base, ext).
Proof. intros H. destruct n; simpl; now rewrite H. Qed.

Lemma suffix_loop_step n base ext repl :
  mimetypes.suffix_map !! Str.lower ext = Some repl ->
  mimetypes.suffix_loop (S n) base ext
  = let '(base', ext') := posixpath.splitext (base ++ repl) in
    mimetypes.suffix_loop n base' ext'.
Proof. intros H. simpl. now rewrite H. Qed.

(** The [while] loop of [guess_type] exits within one round, on every
    input. *)
Lemma suffix_loop_enough n base ext :
  exists r, mimetypes.suffix_loop 1 base ext = Some r
            /\ mimetypes.suffix_loop (S n) base ext = Some r.
Proof.
  simpl. destruct (mimetypes.suffix_map !! Str.lower ext) as [repl|] eqn:E.
  - pose proof (suffix_round base repl (suffix_map_range _ _ E)) as Hstop.
    destruct (posixpath.splitext (base ++ repl)) as [b' e'].
    simpl in Hstop. exists (b', e').
    split; [rewrite Hstop; reflexivity | now apply suffix_loop_stop].
  - eauto.
Qed.

Lemma guess_type_fuel_enough n tm url :
  mimetypes.guess_type_fuel (S n) tm url = Some (mimetypes.guess_type tm url).
Proof.
  unfold mimetypes.guess_type, mimetypes.guess_type_fuel.
  destruct (urllib._splittype url) as [scheme rest].
  case_bool_decide; [reflexivity|].
  destruct (posixpath.splitext rest) as [base ext].
  destruct (suffix_loop_enough n base ext) as ([b e] & -> & ->). reflexivity.
Qed.

Lemma splittype_absolute rest :
  urllib._splittype (String "/" rest) = (None, String "/" rest).
Proof. reflexivity. Qed.

(** An absolute path whose file name starts with a character other
    than a dot and ends in one extension [.e] that is neither an alias
    of [suffix_map] nor an encoding: the type is the one registered for
    the lowered extension. *)
Lemma guess_type_plain tm pre c name e :
  c <> "."%char ->
  Str.contains "/" (String c name) = false ->
  Str.contains "/" e = false ->
  Str.contains "." e = false ->
  mimetypes.suffix_map !! Str.lower (String "." e) = None ->
  mimetypes.encodings_map !! String "."%char e = None ->
  mimetypes.guess_type tm (String "/" pre ++ String c name ++ String "." e)
  = (tm !! Str.lower (String "." e), None).
Proof.
  intros Hc Hname Hes Hed Hsuf Henc.
  unfold mimetypes.guess_type, mimetypes.guess_type_fuel.
  rewrite str_app_cons, splittype_absolute, <- str_app_cons.
  rewrite bool_decide_eq_false_2 by discriminate.
  rewrite splitext_stem by assumption.
  rewrite suffix_loop_stop by assumption.
  unfold mimetypes.guess_after_suffix. rewrite Henc. simpl.
  now destruct (tm !! _).
Qed.

(** The same file name with an encoding suffix [.e2] appended: the
    suffix is stripped and only the extension before it is looked up. *)
Lemma guess_type_encoded tm pre c name e e2 enc :
  c <> "."%char ->
  Str.contains "/" (String c name) = false ->
  Str.contains "/" e = false ->
  Str.contains "." e = false ->
  Str.contains "/" e2 = false ->
  Str.contains "." e2 = false ->
  mimetypes.suffix_map !! Str.lower (String "." e2) = None ->
  mimetypes.encodings_map !! String "."%char e2 = Some enc ->
  mimetypes.guess_type tm
    (String "/" pre ++ String c name ++ String "." e ++ String "." e2)
  = (tm !! Str.lower (String "." e), Some enc).
Proof.
  intros Hc Hname Hes Hed Hes2 Hed2 Hsuf Henc.
  unfold mimetypes.guess_type, mimetypes.guess_type_fuel.
  rewrite str_app_cons, splittype_absolute, <- str_app_cons.
  rewrite bool_decide_eq_false_2 by discriminate.
  replace (String "/" pre ++ String c name ++ String "." e ++ String "." e2)
    with (String "/" pre ++ String c (name ++ String "." e) ++ String "." e2)
    by (now rewrite <- str_app_cons, (str_app_assoc (String c name))).
  rewrite splitext_stem; [|assumption| |assumption|assumption].
  2:{ rewrite <- str_app_cons, contains_app, Hname, contains_cons, Hes. reflexivity. }
  rewrite suffix_loop_stop by assumption.
  unfold mimetypes.guess_after_suffix. rewrite Henc.
  rewrite <- str_app_cons, splitext_stem by assumption. simpl.
  now destruct (tm !! _).
Qed.

(** An alias of [suffix_map] is expanded before anything else: the
    guess for [x.tgz] is the guess for [x.tar.gz]. *)
Lemma guess_type_alias tm pre c name e repl :
  c <> "."%char ->
  Str.contains "/" (String c name) = false ->
  Str.contains "/" e = false ->
  Str.contains "." e = false ->
  mimetypes.suffix_map !! Str.lower (String "." e) = Some repl ->
  mimetypes.guess_type tm (String "/" pre ++ String c name ++ String "." e)
  = mimetypes.guess_type tm (String "/" pre ++ String c name ++ repl).
Proof.
  intros Hc Hname Hes Hed Hsuf.
  unfold mimetypes.guess_type, mimetypes.guess_type_fuel.
  rewrite !str_app_cons, !splittype_absolute, <- !str_app_cons.
  rewrite !bool_decide_eq_false_2 by discriminate.
  rewrite splitext_stem by assumption.
  rewrite <- (str_app_assoc (String "/" pre)).
  pose proof (suffix_round (String "/" pre ++ String c name) repl
                (suffix_map_range _ _ Hsuf)) as Hstop.
  rewrite (suffix_loop_step _ _ _ repl) by exact Hsuf.
  destruct (posixpath.splitext ((String "/" pre ++ String c name) ++ repl))
    as [b' e'].
  simpl in Hstop. now rewrite !suffix_loop_stop by exact Hstop.
Qed.

Lemma encodings_map_domain k enc :
  mimetypes.encodings_map !! k = Some enc ->
  k ∈ [".gz"; ".Z"; ".bz2"; ".xz"; ".br"].
Proof.
  unfold mimetypes.encodings_map. intros H%elem_of_list_to_map_2.
  repeat (apply elem_of_cons in H as [H|H]; [injection H as <- _; set_solver|]).
  now apply elem_of_nil in H.
Qed.

End MimeFacts.

(** ** The gateway *)

Section GatewayFacts.
Context {L : Libraries}.
Implicit Types (st : process) (c : client) (e : exception).

Lemma construction_decided blob :
  (exists c, construction_yields blob c) \/ (exists e, construction_fails blob e).
Proof.
  destruct (json_loads blob) as [info|e] eqn:Hj;
    [|right; exists e; now apply fails_json].
  destruct (from_service_account_info info GCS_SCOPES) as [creds|e] eqn:Hc;
    [|right; exists e; now apply (fails_credentials _ _ info)].
  destruct (storage_Client creds) as [c|e] eqn:Hs;
    [left; exists c; now apply (yields_client _ _ info creds)
    |right; exists e; now apply (fails_client _ _ info creds)].
Qed.

Lemma initialize_absent st :
  environ st !! "GCP_SA_CREDENTIALS" = None ->
  initialize_gcp_client st = (Return None, st).
Proof.
  intros H. unfold initialize_gcp_client, mbind, M_bind, os_getenv.
  rewrite H. reflexivity.
Qed.

Lemma initialize_empty st :
  environ st !! "GCP_SA_CREDENTIALS" = Some EmptyString ->
  initialize_gcp_client st = (Return None, st).
Proof.
  intros H. unfold initialize_gcp_client, mbind, M_bind, os_getenv.
  rewrite H. reflexivity.
Qed.

Lemma initialize_malformed st blob e :
  environ st !! "GCP_SA_CREDENTIALS" = Some blob ->
  blob <> EmptyString ->
  construction_fails blob e ->
  initialize_gcp_client st
  = (Return None,
     emit {| levelname := ERROR;
             message := "Failed to initialize GCS client: " ++ exc_str e |} st).
Proof.
  intros H Hne Hf. unfold initialize_gcp_client, mbind, M_bind, os_getenv.
  rewrite H. destruct blob as [|a blob]; [congruence|].
  unfold try_except, lift, logger_error, mret, M_ret.
  destruct Hf as [Hj | info Hj Hc | info creds Hj Hc Hs];
    rewrite Hj; try rewrite Hc; try rewrite Hs; reflexivity.
Qed.

Lemma initialize_well_formed st blob c :
  environ st !! "GCP_SA_CREDENTIALS" = Some blob ->
  blob <> EmptyString ->
  construction_yields blob c ->
  initialize_gcp_client st = (Return (Some c), st).
Proof.
  intros H Hne Hy. unfold initialize_gcp_client, mbind, M_bind, os_getenv.
  rewrite H. destruct blob as [|a blob]; [congruence|].
  unfold try_except, lift, mret, M_ret.
  destruct Hy as [info creds Hj Hc Hs]. rewrite Hj, Hc, Hs. reflexivity.
Qed.

(** Initialisation returns, and leaves everything but the log as it was. *)
Lemma initialize_returns st :
  exists r rs,
    initialize_gcp_client st
    = (Return r, {| environ := environ st; globals := globals st;
                    records := (records st ++ rs)%list;
                    transfers := transfers st; backend := backend st |}).
Proof.
  destruct st as [env g recs tr w].
  destruct (env !! "GCP_SA_CREDENTIALS") as [blob|] eqn:H.
  - destruct (String.eqb_spec blob EmptyString) as [->|Hne].
    + exists None, []. rewrite initialize_empty by exact H.
      simpl. now rewrite app_nil_r.
    + destruct (construction_decided blob) as [[c Hy]|[e Hf]].
      * exists (Some c), []. rewrite (initialize_well_formed _ blob c) by assumption.
        simpl. now rewrite app_nil_r.
      * eexists None, [_]. rewrite (initialize_malformed _ blob e) by assumption.
        reflexivity.
  - exists None, []. rewrite initialize_absent by exact H.
    simpl. now rewrite app_nil_r.
Qed.

Lemma guess_content_type_run file_path st :
  guess_content_type file_path st
  = (Return (guessed file_path),
     if truthy (guessed file_path) then st
     else emit (unknown_type_warning file_path) st).
Proof.
  unfold guess_content_type, guessed.
  destruct (mimetypes.guess_type types_map file_path) as [ct enc]. simpl.
  unfold mbind, M_bind, logger_warning, mret, M_ret.
  destruct (truthy ct); reflexivity.
Qed.

(** An enabled upload whose bucket name passes the check, step by
    step: one transfer is requested, and its answer decides between the
    URL and the logged, re-raised error. *)
Lemma upload_enabled_run st c file_path bucket_name :
  gcs_client (globals st) = Some c ->
  validate_bucket_name (chosen_bucket st bucket_name) = Return tt ->
  upload_to_gcs file_path bucket_name st
  = let blob := target st c file_path bucket_name in
    let after w (last : log_record) :=
      {| environ := environ st; globals := globals st;
         records := (records st ++ preamble file_path ++ [last])%list;
         transfers := (transfers st ++ [(blob, file_path)])%list;
         backend := w |} in
    match upload_from_filename blob file_path (backend st) with
    | (Return _, w) =>
        (Return (public_url blob),
         after w {| levelname := INFO;
                    message := "File uploaded successfully to GCS: "
                               ++ public_url blob |})
    | (Raise e, w) =>
        (Raise e,
         after w {| levelname := ERROR;
                    message := "Error uploading file to GCS: " ++ exc_str e |})
    end.
Proof.
  intros Hc Hv. unfold upload_to_gcs, mbind at 1, M_bind at 1, read_globals.
  rewrite Hc. unfold try_except, mbind, M_bind.
  rewrite guess_content_type_run.
  unfold target, preamble, client_bucket, lift.
  unfold chosen_bucket in *.
  destruct st as [env g recs tr w0]. simpl in *. rewrite Hv.
  destruct (truthy (guessed file_path)) eqn:Ht;
    unfold logger_info, logger_error, blob_upload_from_filename, raise,
           mret, M_ret, emit, transferred; simpl;
    match goal with
    | |- context [upload_from_filename ?b ?p ?w] =>
        destruct (upload_from_filename b p w) as [[[]|e] w']
    end; simpl; rewrite <- ?app_assoc; reflexivity.
Qed.

(** An enabled upload whose bucket name the check rejects: the error of
    the check is logged and raised again, and no transfer is requested. *)
Lemma upload_rejected_run st c file_path bucket_name e :
  gcs_client (globals st) = Some c ->
  validate_bucket_name (chosen_bucket st bucket_name) = Raise e ->
  upload_to_gcs file_path bucket_name st
  = (Raise e,
     {| environ := environ st; globals := globals st;
        records := (records st ++ preamble file_path
                    ++ [{| levelname := ERROR;
                           message := "Error uploading file to GCS: " ++ exc_str e |}])%list;
        transfers := transfers st;
        backend := backend st |}).
Proof.
  intros Hc Hv. unfold upload_to_gcs, mbind at 1, M_bind at 1, read_globals.
  rewrite Hc. unfold try_except, mbind, M_bind.
  rewrite guess_content_type_run.
  unfold preamble, client_bucket, lift.
  unfold chosen_bucket in *.
  destruct st as [env g recs tr w0]. simpl in *. rewrite Hv.
  destruct (truthy (guessed file_path)) eqn:Ht;
    unfold logger_info, logger_error, raise, mret, M_ret, emit; simpl;
    rewrite <- ?app_assoc; reflexivity.
Qed.

(** The check of a bucket name returns or raises. *)
Lemma validate_cases (name : option string) :
  validate_bucket_name name = Return tt \/ exists e, validate_bucket_name name = Raise e.
Proof. destruct (validate_bucket_name name) as [[]|e]; eauto. Qed.

Lemma upload_disabled_run st file_path bucket_name :
  gcs_client (globals st) = None ->
  upload_to_gcs file_path bucket_name st = (Raise not_initialized, st).
Proof.
  intros Hc. unfold upload_to_gcs, mbind, M_bind, read_globals.
  rewrite Hc. reflexivity.
Qed.

Lemma upload_globals st file_path bucket_name :
  globals (snd (upload_to_gcs file_path bucket_name st)) = globals st.
Proof.
  destruct (gcs_client (globals st)) as [c|] eqn:Hc.
  - destruct (validate_cases (chosen_bucket st bucket_name)) as [Hv|[e Hv]].
    + rewrite (upload_enabled_run _ c) by assumption. simpl.
      destruct (upload_from_filename _ _ _) as [[[]|e] w]; reflexivity.
    + now rewrite (upload_rejected_run _ c _ _ e).
  - now rewrite upload_disabled_run.
Qed.

Lemma step_globals op st : globals (step op st) = globals st.
Proof.
  destruct op as [|p|p b|k v|k]; simpl.
  - destruct (initialize_returns st) as (r & rs & ->). reflexivity.
  - rewrite guess_content_type_run. simpl. now destruct (truthy _).
  - apply upload_globals.
  - reflexivity.
  - reflexivity.
Qed.

Lemma run_globals ops st : globals (run ops st) = globals st.
Proof.
  revert st. induction ops as [|op ops IH]; intros st; [reflexivity|].
  simpl. rewrite IH. apply step_globals.
Qed.

(** What the import binds: the bucket name of the environment at that
    moment, also as the default of [bucket_name]. *)
Lemma import_binds st :
  GCP_BUCKET_NAME (globals (snd (import_module st))) = environ st !! "GCP_BUCKET_NAME"
  /\ upload_to_gcs_defaults (globals (snd (import_module st)))
     = environ st !! "GCP_BUCKET_NAME".
Proof.
  unfold import_module, mbind, M_bind, os_getenv, assign_GCP_BUCKET_NAME,
    assign_gcs_client, bind_upload_to_gcs_defaults, read_globals.
  match goal with
  | |- context [initialize_gcp_client ?s] =>
      destruct (initialize_returns s) as (r & rs & ->)
  end.
  simpl. split; reflexivity.
Qed.

End GatewayFacts.

(** * The claims *)

Section Claims.
Context {L : Libraries}.
Implicit Types (st : process) (c : client) (e : exception).

(** C1. An upload called while the gateway is disabled (no client)
    fails with the module's configuration error, a [ValueError] whose
    text is "GCS client is not initialized. Skipping file upload.",
    and leaves the whole process state as it was: nothing is logged,
    no transfer is requested and the backend is untouched. *)
Theorem upload_disabled_fails st file_path bucket_arg :
  gcs_client (globals st) = None ->
  upload_to_gcs file_path bucket_arg st
  = (Raise (ValueError "GCS client is not initialized. Skipping file upload."), st).
Proof.
  intros Hc. unfold upload_to_gcs, mbind, M_bind, read_globals.
  rewrite Hc. reflexivity.
Qed.

(** C2. Initialisation never raises: it returns on every process
    state; without a credential blob it returns no client, and with a
    blob whose parsing or credential construction fails it returns no
    client either. *)
Theorem initialize_never_raises st :
  (exists r st', initialize_gcp_client st = (Return r, st'))
  /\ (environ st !! "GCP_SA_CREDENTIALS" = None ->
      fst (initialize_gcp_client st) = Return None)
  /\ (forall blob e,
        environ st !! "GCP_SA_CREDENTIALS" = Some blob ->
        construction_fails blob e ->
        fst (initialize_gcp_client st) = Return None).
Proof.
  split; [|split].
  - destruct (initialize_returns st) as (r & rs & H). eauto.
  - intros H. now rewrite initialize_absent.
  - intros blob e H Hf.
    destruct (String.eqb_spec blob EmptyString) as [->|Hne].
    + now rewrite initialize_empty.
    + now rewrite (initialize_malformed _ blob e).
Qed.

(** C3. Content-type inference returns on every path, with a type or
    with [None], and logs a warning exactly when the result is falsy;
    with the standard entry for [.pdf] in the table, "report.pdf"
    gives "application/pdf", and "data.unknownext", whose extension
    the table does not hold, gives [None] and the warning. *)
Theorem guess_content_type_returns st :
  types_map !! ".pdf" = Some "application/pdf" ->
  types_map !! ".unknownext" = None ->
  guess_content_type "report.pdf" st = (Return (Some "application/pdf"), st)
  /\ guess_content_type "data.unknownext" st
     = (Return None, emit (unknown_type_warning "data.unknownext") st)
  /\ (forall file_path,
        exists r, guess_content_type file_path st
                  = (Return r, if truthy r then st
                               else emit (unknown_type_warning file_path) st)).
Proof.
  intros Hpdf Hunk.
  assert (G1 : guessed "report.pdf" = Some "application/pdf").
  { unfold guessed, mimetypes.guess_type, mimetypes.guess_type_fuel.
    change (urllib._splittype "report.pdf") with (@None string, "report.pdf").
    cbv beta iota. rewrite bool_decide_eq_false_2 by discriminate.
    change (posixpath.splitext "report.pdf") with ("report", ".pdf").
    cbv beta iota.
    rewrite suffix_loop_stop by (vm_compute; reflexivity).
    unfold mimetypes.guess_after_suffix.
    replace (mimetypes.encodings_map !! ".pdf") with (@None string)
      by (vm_compute; reflexivity).
    change (Str.lower ".pdf") with ".pdf". now rewrite Hpdf. }
  assert (G2 : guessed "data.unknownext" = None).
  { unfold guessed, mimetypes.guess_type, mimetypes.guess_type_fuel.
    change (urllib._splittype "data.unknownext") with (@None string, "data.unknownext").
    cbv beta iota. rewrite bool_decide_eq_false_2 by discriminate.
    change (posixpath.splitext "data.unknownext") with ("data", ".unknownext").
    cbv beta iota.
    rewrite suffix_loop_stop by (vm_compute; reflexivity).
    unfold mimetypes.guess_after_suffix.
    replace (mimetypes.encodings_map !! ".unknownext") with (@None string)
      by (vm_compute; reflexivity).
    change (Str.lower ".unknownext") with ".unknownext". now rewrite Hunk. }
  split; [|split].
  - rewrite guess_content_type_run, G1. reflexivity.
  - rewrite guess_content_type_run, G2. reflexivity.
  - intros p. eexists. apply guess_content_type_run.
Qed.

(** C4. The remote object key of an upload is the base name of the
    local path, directory components stripped: with a bucket name that
    passes the library's check, two uploads of paths with equal base
    names (the same path twice among them) request transfers to the
    same key of the same bucket, and the gateway raises nothing of its
    own for the repeat: when the service accepts the second transfer,
    the second upload returns the URL. *)
Theorem upload_key_is_basename st c path1 path2 bucket_arg :
  gcs_client (globals st) = Some c ->
  validate_bucket_name (chosen_bucket st bucket_arg) = Return tt ->
  posixpath.basename path2 = posixpath.basename path1 ->
  let first := upload_to_gcs path1 bucket_arg st in
  let second := upload_to_gcs path2 bucket_arg (snd first) in
  exists blob1 blob2,
    transfers (snd second)
    = (transfers st ++ [(blob1, path1); (blob2, path2)])%list
    /\ blob_name blob1 = posixpath.basename path1
    /\ blob_name blob2 = posixpath.basename path1
    /\ blob_bucket blob2 = blob_bucket blob1
    /\ Str.contains "/" (posixpath.basename path1) = false
    /\ (forall dir name, Str.contains "/" name = false ->
          posixpath.basename (dir ++ String "/" name) = name)
    /\ (forall w, upload_from_filename blob2 path2 (backend (snd first)) = (Return tt, w) ->
          fst second = Return (public_url blob2)).
Proof.
  intros Hc Hv Hbase first second.
  assert (Hg : globals (snd first) = globals st) by apply upload_globals.
  assert (Hc' : gcs_client (globals (snd first)) = Some c) by now rewrite Hg.
  assert (Hv' : validate_bucket_name (chosen_bucket (snd first) bucket_arg) = Return tt)
    by (unfold chosen_bucket in *; now rewrite Hg).
  exists (target st c path1 bucket_arg), (target (snd first) c path2 bucket_arg).
  assert (Hb : forall s p, blob_name (target s c p bucket_arg) = posixpath.basename p).
  { intros s p. unfold target, prepare_blob. now destruct (truthy _). }
  assert (Hk : forall s p, blob_bucket (target s c p bucket_arg)
                           = {| bucket_client := c;
                                bucket_name := chosen_bucket s bucket_arg |}).
  { intros s p. unfold target, prepare_blob. now destruct (truthy _). }
  repeat split.
  - subst second. rewrite (upload_enabled_run _ c) by assumption.
    assert (Ht : transfers (snd first)
                 = (transfers st ++ [(target st c path1 bucket_arg, path1)])%list).
    { subst first. rewrite (upload_enabled_run _ c) by assumption. simpl.
      now destruct (upload_from_filename _ _ _) as [[[]|e] w]. }
    simpl. destruct (upload_from_filename _ _ _) as [[[]|e] w]; simpl;
      rewrite Ht, <- app_assoc; reflexivity.
  - apply Hb.
  - rewrite Hb. exact Hbase.
  - rewrite !Hk. unfold chosen_bucket. now rewrite Hg.
  - apply basename_no_sep.
  - intros dir name. apply basename_join.
  - intros w Hw. subst second. rewrite (upload_enabled_run _ c) by assumption.
    simpl. now rewrite Hw.
Qed.

(** C5. On an enabled gateway the bucket of an upload is the one the
    caller passes, and, when the caller passes none, the bucket name
    that the environment held when the module was imported, whatever
    was called or changed in the environment since: once that name has
    passed the library's check, the transfer goes to that bucket. *)
Theorem upload_bucket_choice boot ops c file_path bucket_arg :
  let st := run ops (snd (import_module boot)) in
  let bucket := match bucket_arg with
                | Passed b => b
                | Omitted => environ boot !! "GCP_BUCKET_NAME"
                end in
  gcs_client (globals st) = Some c ->
  validate_bucket_name bucket = Return tt ->
  exists blob,
    transfers (snd (upload_to_gcs file_path bucket_arg st))
    = (transfers st ++ [(blob, file_path)])%list
    /\ bucket_name (blob_bucket blob) = bucket.
Proof.
  intros st bucket Hc Hv.
  assert (Hd : chosen_bucket st bucket_arg = bucket).
  { unfold chosen_bucket, bucket. destruct bucket_arg; [|reflexivity].
    subst st. rewrite run_globals. apply import_binds. }
  exists (target st c file_path bucket_arg). split.
  - rewrite (upload_enabled_run _ c) by (rewrite ?Hd; assumption). simpl.
    now destruct (upload_from_filename _ _ _) as [[[]|e] w].
  - unfold target, prepare_blob.
    destruct (truthy _); simpl; exact Hd.
Qed.

(** C6. When the transfer of an enabled upload raises [e] (the upload
    has reached the transfer: the bucket name has passed the check),
    the upload logs the error and raises that same [e]; exactly one
    transfer has been requested of the service: there is no second
    attempt. *)
Theorem upload_backend_error_reraised st c file_path bucket_arg e w :
  gcs_client (globals st) = Some c ->
  validate_bucket_name (chosen_bucket st bucket_arg) = Return tt ->
  upload_from_filename (target st c file_path bucket_arg) file_path (backend st)
  = (Raise e, w) ->
  exists st',
    upload_to_gcs file_path bucket_arg st = (Raise e, st')
    /\ records st'
       = (records st ++ preamble file_path
          ++ [{| levelname := ERROR;
                 message := "Error uploading file to GCS: " ++ exc_str e |}])%list
    /\ transfers st'
       = (transfers st ++ [(target st c file_path bucket_arg, file_path)])%list
    /\ backend st' = w.
Proof.
  intros Hc Hv Hw. rewrite (upload_enabled_run _ c) by assumption.
  simpl. rewrite Hw. eexists. split; [reflexivity|]. simpl. auto.
Qed.

(** C7, as the code has it. A failure the gateway handles is logged
    at error level with the text of the exception, and nothing else,
    before it becomes the disabled state (at startup) or is raised
    again (at call time), be it the error of the transfer or that of
    the check of the bucket name; at call time the file path is in the
    info record logged before, and the records do not depend on the
    bucket.  The error of a disabled upload is raised with no record
    at all. *)
Theorem failures_logged_by_text st :
  (forall blob e,
     environ st !! "GCP_SA_CREDENTIALS" = Some blob ->
     blob <> EmptyString ->
     construction_fails blob e ->
     initialize_gcp_client st
     = (Return None,
        emit {| levelname := ERROR;
                message := "Failed to initialize GCS client: " ++ exc_str e |} st))
  /\ (forall c file_path bucket_arg e w,
        gcs_client (globals st) = Some c ->
        validate_bucket_name (chosen_bucket st bucket_arg) = Return tt ->
        upload_from_filename (target st c file_path bucket_arg) file_path (backend st)
        = (Raise e, w) ->
        exists st',
          upload_to_gcs file_path bucket_arg st = (Raise e, st')
          /\ records st'
             = (records st ++ preamble file_path
                ++ [{| levelname := ERROR;
                       message := "Error uploading file to GCS: " ++ exc_str e |}])%list
          /\ In {| levelname := INFO;
                   message := "Uploading file to Google Cloud Storage: " ++ file_path |}
                (preamble file_path))
  /\ (forall file_path bucket_arg,
        gcs_client (globals st) = None ->
        upload_to_gcs file_path bucket_arg st = (Raise not_initialized, st))
  /\ (forall c file_path bucket_arg e,
        gcs_client (globals st) = Some c ->
        validate_bucket_name (chosen_bucket st bucket_arg) = Raise e ->
        exists st',
          upload_to_gcs file_path bucket_arg st = (Raise e, st')
          /\ records st'
             = (records st ++ preamble file_path
                ++ [{| levelname := ERROR;
                       message := "Error uploading file to GCS: " ++ exc_str e |}])%list
          /\ transfers st' = transfers st).
Proof.
  split; [|split; [|split]].
  - intros blob e H Hne Hf. now apply (initialize_malformed _ blob e).
  - intros c p b e w Hc Hv Hw. rewrite (upload_enabled_run _ c) by assumption.
    simpl. rewrite Hw. eexists. split; [reflexivity|]. split; [reflexivity|].
    unfold preamble. apply in_or_app. right. now left.
  - intros p b Hc. now apply upload_disabled_run.
  - intros c p b e Hc Hv. rewrite (upload_rejected_run _ c _ _ e) by assumption.
    eexists. split; [reflexivity|]. split; reflexivity.
Qed.

(** C8, as the code has it. Content-type inference is the type half
    of [mimetypes.guess_type]; the encoding half is dropped.  For an
    absolute path whose file name starts with a character other than
    a dot and whose last extension is ASCII: that extension is matched
    against the type table in lower case; an encoding suffix ([.gz], [.Z], [.bz2], [.xz], [.br],
    in that exact case) is stripped first, so that the extension
    before it decides the type and no entry of the table for the
    compound extension is looked up; and an alias of [suffix_map]
    ([.tgz] and the like, in any case) stands for its expansion. *)
Theorem content_type_by_last_extension st (pre name x : string) (ch : ascii) :
  Str.is_ascii x = true ->
  ch <> "."%char ->
  Str.contains "/" (String ch name) = false ->
  Str.contains "/" x = false ->
  Str.contains "." x = false ->
  let file := String "/" pre ++ String ch name in
  (mimetypes.suffix_map !! Str.lower (String "." x) = None ->
   mimetypes.encodings_map !! String "."%char x = None ->
   fst (guess_content_type (file ++ String "." x) st)
   = Return (types_map !! Str.lower (String "." x)))
  /\ (forall x2 enc,
        mimetypes.encodings_map !! String "."%char x2 = Some enc ->
        fst (guess_content_type (file ++ String "." x ++ String "." x2) st)
        = Return (types_map !! Str.lower (String "." x)))
  /\ (forall repl,
        mimetypes.suffix_map !! Str.lower (String "." x) = Some repl ->
        fst (guess_content_type (file ++ String "." x) st)
        = fst (guess_content_type (file ++ repl) st)).
Proof.
  intros _ Hc Hname Hes Hed file. subst file.
  split; [|split].
  - intros Hsuf Henc. rewrite guess_content_type_run. unfold guessed. simpl.
    rewrite str_app_assoc, guess_type_plain by assumption. reflexivity.
  - intros x2 enc Henc. rewrite guess_content_type_run. unfold guessed. simpl.
    rewrite str_app_assoc.
    pose proof (encodings_map_domain _ _ Henc) as Hdom.
    rewrite (guess_type_encoded _ _ _ _ _ x2 enc); try assumption; [reflexivity|..];
      repeat (apply elem_of_cons in Hdom as [Hdom|Hdom];
              [injection Hdom as ->; vm_compute; reflexivity|]);
      now apply elem_of_nil in Hdom.
  - intros repl Hsuf. rewrite !guess_content_type_run. unfold guessed. simpl.
    rewrite !str_app_assoc, (guess_type_alias _ _ _ _ _ repl) by assumption.
    reflexivity.
Qed.

(** C9. Whatever is called after the import (initialisation again,
    content-type inference, uploads) and however the environment
    changes, the globals of the module stay as the import bound them;
    so on a gateway whose client is absent, every later upload fails
    with the configuration error. *)
Theorem globals_never_reassigned st ops :
  globals (run ops st) = globals st
  /\ (gcs_client (globals st) = None ->
      forall file_path bucket_arg,
        fst (upload_to_gcs file_path bucket_arg (run ops st))
        = Raise (ValueError "GCS client is not initialized. Skipping file upload.")).
Proof.
  split; [apply run_globals|].
  intros Hc p b. rewrite upload_disabled_run; [reflexivity|].
  now rewrite run_globals.
Qed.

(** C10. Without a credential blob in the environment (or with an
    empty one) initialisation returns no client and logs nothing: the
    process state is untouched.  With a blob from which no client can
    be built it logs one record, at error level, and returns no
    client. *)
Theorem initialize_diagnostics st :
  (environ st !! "GCP_SA_CREDENTIALS" = None ->
   initialize_gcp_client st = (Return None, st))
  /\ (environ st !! "GCP_SA_CREDENTIALS" = Some EmptyString ->
      initialize_gcp_client st = (Return None, st))
  /\ (forall blob e,
        environ st !! "GCP_SA_CREDENTIALS" = Some blob ->
        blob <> EmptyString ->
        construction_fails blob e ->
        exists st',
          initialize_gcp_client st = (Return None, st')
          /\ records st'
             = (records st
                ++ [{| levelname := ERROR;
                       message := "Failed to initialize GCS client: " ++ exc_str e |}])%list).
Proof.
  split; [|split].
  - apply initialize_absent.
  - apply initialize_empty.
  - intros blob e H Hne Hf. rewrite (initialize_malformed _ blob e) by assumption.
    eexists. split; reflexivity.
Qed.

End Claims.

(** * Further properties *)

(** ** Strings and paths *)

Section MoreStrFacts.
Implicit Types (c a : ascii) (s t p : string).

Lemma str_app_nil_r s : s ++ EmptyString = s.
Proof.
  induction s as [|a s IH]; rewrite ?str_app_nil_l, ?str_app_cons;
    [reflexivity | now rewrite IH].
Qed.

Lemma take_drop n s : Str.take n s ++ Str.drop n s = s.
Proof.
  revert s. induction n as [|n IH]; intros [|a s]; simpl;
    rewrite ?str_app_nil_l, ?str_app_cons; try reflexivity.
  now rewrite IH.
Qed.

Lemma slice_join s i : Str.slice_to s i ++ Str.slice_from s i = s.
Proof. apply take_drop. Qed.

Lemma rfind_none_absent c s : Str.rfind c s = -1 -> Str.contains c s = false.
Proof.
  induction s as [|a s IH]; [reflexivity|].
  simpl. pose proof (rfind_bounds c s).
  destruct (0 <=? Str.rfind c s) eqn:E; [apply Z.leb_le in E; lia|].
  apply Z.leb_gt in E. destruct (Ascii.eqb a c) eqn:Ea; [discriminate|].
  intros _. rewrite contains_cons, Ea. apply IH. lia.
Qed.

(** Past the last occurrence of [c] there is none. *)
Lemma drop_past_rfind c s : forall n,
  Str.rfind c s < Z.of_nat n -> Str.contains c (Str.drop n s) = false.
Proof.
  induction s as [|a s IH]; intros n Hn.
  - now destruct n.
  - pose proof (rfind_bounds c s) as Hb. simpl in Hn.
    destruct n as [|n].
    + simpl. apply rfind_none_absent. simpl.
      destruct (0 <=? Str.rfind c s) eqn:E; [apply Z.leb_le in E; lia|].
      destruct (Ascii.eqb a c); [lia | reflexivity].
    + simpl. apply IH.
      destruct (0 <=? Str.rfind c s) eqn:E; [lia|]. apply Z.leb_gt in E. lia.
Qed.

(** At the last occurrence of [c] the string reads [c]. *)
Lemma drop_at_rfind c s :
  0 <= Str.rfind c s ->
  exists rest, Str.drop (Z.to_nat (Str.rfind c s)) s = String c rest
               /\ Str.drop (S (Z.to_nat (Str.rfind c s))) s = rest
               /\ Str.contains c rest = false.
Proof.
  induction s as [|a s IH]; simpl; [lia|].
  pose proof (rfind_bounds c s) as Hb.
  destruct (0 <=? Str.rfind c s) eqn:E.
  - apply Z.leb_le in E. intros _. destruct (IH E) as (rest & H1 & H2 & H3).
    exists rest.
    replace (Z.to_nat (Str.rfind c s + 1)) with (S (Z.to_nat (Str.rfind c s))) by lia.
    auto.
  - apply Z.leb_gt in E. destruct (Ascii.eqb a c) eqn:Ea; [|lia].
    apply Ascii.eqb_eq in Ea. subst a. intros _. exists s. simpl.
    repeat split. apply rfind_none_absent. lia.
Qed.

Lemma get_app_add s t n :
  String.get (String.length s + n) (s ++ t) = String.get n t.
Proof.
  induction s as [|a s IH]; rewrite ?str_app_nil_l, ?str_app_cons; simpl;
    [reflexivity | assumption].
Qed.

Lemma all_dots_get s t n :
  Str.all_dots s = true -> (n < String.length s)%nat ->
  String.get n (s ++ t) = Some "."%char.
Proof.
  revert n. induction s as [|a s IH]; intros n Hd Hn; [simpl in Hn; lia|].
  rewrite str_app_cons. simpl in Hd, Hn.
  apply andb_true_iff in Hd as [Ha Hs]. apply Ascii.eqb_eq in Ha. subst a.
  destruct n as [|n]; simpl; [reflexivity|].
  apply IH; [assumption | lia].
Qed.

Lemma all_dots_rfind s :
  Str.all_dots s = true -> s <> EmptyString -> Str.rfind "." s = Str.len s - 1.
Proof.
  induction s as [|a s IH]; [congruence|]. intros Hd _.
  simpl in Hd. apply andb_true_iff in Hd as [Ha Hs].
  apply Ascii.eqb_eq in Ha. subst a. rewrite len_cons. simpl.
  destruct s as [|b s].
  - reflexivity.
  - rewrite IH by (assumption || discriminate).
    pose proof (len_nonneg s). rewrite len_cons.
    destruct (0 <=? Str.len s + 1 - 1) eqn:E; [lia|]. apply Z.leb_gt in E. lia.
Qed.

End MoreStrFacts.

Section MorePathFacts.
Implicit Types (c : ascii) (p dir name rest : string).

Lemma skip_leading_dots_all p n : forall start,
  (forall i, (start <= i < start + n)%nat -> String.get i p = Some posixpath.extsep) ->
  posixpath.skip_leading_dots p start n = false.
Proof.
  induction n as [|n IH]; intros start H; [reflexivity|].
  simpl. rewrite (H start) by lia. rewrite Ascii.eqb_refl.
  apply IH. intros i Hi. apply H. lia.
Qed.

Lemma basename_plain name :
  Str.contains "/" name = false -> posixpath.basename name = name.
Proof.
  intros H. unfold posixpath.basename, posixpath.sep.
  rewrite (rfind_absent _ _ H). reflexivity.
Qed.

(** A final component without a dot has no extension. *)
Lemma splitext_no_dot dir name :
  Str.contains "/" name = false ->
  Str.contains "." name = false ->
  posixpath.splitext (dir ++ String "/" name) = (dir ++ String "/" name, EmptyString).
Proof.
  intros Hs Hd. unfold posixpath.splitext, posixpath.sep, posixpath.extsep.
  rewrite (rfind_app_present "/") by (rewrite (rfind_head _ _ Hs); lia).
  rewrite (rfind_head _ _ Hs).
  rewrite (rfind_app_absent ".")
    by (apply rfind_absent; rewrite contains_cons, Hd; reflexivity).
  pose proof (rfind_bounds "." dir).
  replace (Str.len dir + 0 <? Str.rfind "." dir) with false
    by (symmetry; apply Z.ltb_ge; lia).
  reflexivity.
Qed.

(** A final component made of dots and then of a part without a dot
    has no extension either: the leading dots are skipped. *)
Lemma splitext_leading_dots dir dots rest :
  Str.all_dots dots = true ->
  dots <> EmptyString ->
  Str.contains "/" rest = false ->
  Str.contains "." rest = false ->
  posixpath.splitext (dir ++ String "/" (dots ++ rest))
  = (dir ++ String "/" (dots ++ rest), EmptyString).
Proof.
  intros Hdots Hne Hs Hd.
  unfold posixpath.splitext, posixpath.sep, posixpath.extsep.
  assert (Hnos : Str.contains "/" (dots ++ rest) = false).
  { rewrite contains_app, Hs, orb_false_r.
    clear Hne. induction dots as [|a d IH]; [reflexivity|].
    simpl in Hdots. apply andb_true_iff in Hdots as [Ha Hd'].
    apply Ascii.eqb_eq in Ha. subst a. rewrite contains_cons. simpl. now apply IH. }
  assert (Hdot : Str.rfind "." (dots ++ rest) = Str.len dots - 1).
  { rewrite rfind_app_absent by now apply rfind_absent. now apply all_dots_rfind. }
  assert (Hlen : 1 <= Str.len dots).
  { destruct dots; [congruence|]. rewrite len_cons. pose proof (len_nonneg dots). lia. }
  rewrite (rfind_app_present "/") by (rewrite (rfind_head _ _ Hnos); lia).
  rewrite (rfind_head _ _ Hnos).
  assert (Hdot' : Str.rfind "." (String "/" (dots ++ rest)) = Str.len dots).
  { simpl. rewrite Hdot.
    destruct (0 <=? Str.len dots - 1) eqn:E; [lia|]. apply Z.leb_gt in E. lia. }
  rewrite (rfind_app_present ".") by (rewrite Hdot'; lia).
  rewrite Hdot'.
  rewrite skip_leading_dots_all; [now rewrite andb_false_r|].
  intros i Hi.
  replace (dir ++ String "/" (dots ++ rest)) with ((dir ++ "/") ++ dots ++ rest)
    by (now rewrite str_app_assoc).
  assert (Hl : String.length (dir ++ "/") = S (String.length dir)).
  { clear. induction dir as [|a d IH]; rewrite ?str_app_nil_l, ?str_app_cons;
      simpl; [reflexivity | now rewrite IH]. }
  unfold Str.len in *.
  replace i with (String.length (dir ++ "/") + (i - S (String.length dir)))%nat
    by (rewrite Hl; lia).
  rewrite get_app_add. apply all_dots_get; [assumption | lia].
Qed.

(** A path with a directory part whose first component holds no colon
    has no URL scheme. *)
Lemma splittype_no_colon dir rest :
  Str.contains ":" dir = false ->
  urllib._splittype (dir ++ String "/" rest) = (None, dir ++ String "/" rest).
Proof.
  intros H. unfold urllib._splittype.
  assert (Hs : exists s r, urllib.span_scheme (dir ++ String "/" rest)
                           = (s, String "/"%char r)).
  { induction dir as [|a d IH]; rewrite ?str_app_nil_l, ?str_app_cons.
    - simpl. eauto.
    - rewrite contains_cons in H. apply orb_false_iff in H as [Ha Hd].
      simpl. rewrite Ha, orb_false_r.
      destruct (Ascii.eqb a "/") eqn:Es.
      + apply Ascii.eqb_eq in Es. subst a. eauto.
      + destruct (IH Hd) as (s & r & ->). eauto. }
  destruct Hs as (s & r & ->). now destruct s.
Qed.

End MorePathFacts.

(** X1. [splitext] cuts a path in two parts that give the path back when
    joined; the extension is empty, or a dot followed by characters
    among which there is neither a dot nor a slash. *)
Theorem splitext_recombines (p : string) :
  fst (posixpath.splitext p) ++ snd (posixpath.splitext p) = p
  /\ (snd (posixpath.splitext p) = EmptyString
      \/ exists e, snd (posixpath.splitext p) = String "."%char e
                   /\ Str.contains "." e = false
                   /\ Str.contains "/" e = false).
Proof.
  unfold posixpath.splitext, posixpath.sep, posixpath.extsep.
  pose proof (rfind_bounds "/" p) as Hs.
  destruct (Str.rfind "/" p <? Str.rfind "." p) eqn:E; simpl;
    [|split; [apply str_app_nil_r | now left]].
  apply Z.ltb_lt in E.
  destruct (posixpath.skip_leading_dots _ _ _); simpl;
    [|split; [apply str_app_nil_r | now left]].
  split; [apply slice_join|]. right.
  destruct (drop_at_rfind "." p) as (e & H1 & H2 & H3); [lia|].
  exists e. unfold Str.slice_from, Str.bound.
  replace (Str.rfind "." p <? 0) with false by (symmetry; apply Z.ltb_ge; lia).
  repeat split; [assumption..|].
  rewrite <- H2. apply drop_past_rfind. lia.
Qed.

(** X2. [basename] is the part of the path after its last slash: a
    path without a slash is its own base name, any other path is a
    directory part, a slash and the base name; the base name holds no
    slash, so taking it twice changes nothing. *)
Theorem basename_is_last_component (p : string) :
  ((Str.contains "/" p = false /\ posixpath.basename p = p)
   \/ exists dir, p = dir ++ String "/" (posixpath.basename p))
  /\ Str.contains "/" (posixpath.basename p) = false
  /\ posixpath.basename (posixpath.basename p) = posixpath.basename p.
Proof.
  split; [|split; [apply basename_no_sep | apply basename_plain, basename_no_sep]].
  pose proof (rfind_bounds "/" p) as Hb.
  destruct (Z.eq_dec (Str.rfind "/" p) (-1)) as [Hr|Hr].
  - left. pose proof (rfind_none_absent _ _ Hr) as Hc.
    split; [assumption | now apply basename_plain].
  - right. destruct (drop_at_rfind "/" p) as (rest & H1 & H2 & _); [lia|].
    exists (Str.take (Z.to_nat (Str.rfind "/" p)) p).
    unfold posixpath.basename, posixpath.sep, Str.slice_from, Str.bound.
    replace (Str.rfind "/" p + 1 <? 0) with false by (symmetry; apply Z.ltb_ge; lia).
    replace (Z.to_nat (Str.rfind "/" p + 1)) with (S (Z.to_nat (Str.rfind "/" p))) by lia.
    rewrite H2, <- H1. symmetry. apply take_drop.
Qed.

(** ** More on [mimetypes] and on the gateway *)

Section MoreGatewayFacts.
Context {L : Libraries}.
Implicit Types (st : process) (c : client) (e : exception).

(** A path without scheme and without extension is looked up under the
    empty extension. *)
Lemma guess_type_no_extension tm url :
  urllib._splittype url = (None, url) ->
  posixpath.splitext url = (url, EmptyString) ->
  mimetypes.guess_type tm url = (tm !! EmptyString, None).
Proof.
  intros Hs He. unfold mimetypes.guess_type, mimetypes.guess_type_fuel.
  rewrite Hs, bool_decide_eq_false_2 by discriminate. rewrite He.
  rewrite suffix_loop_stop by (vm_compute; reflexivity).
  unfold mimetypes.guess_after_suffix.
  replace (mimetypes.encodings_map !! EmptyString) with (@None string)
    by (vm_compute; reflexivity).
  simpl. now destruct (tm !! EmptyString).
Qed.

Lemma construction_exclusive blob c e :
  construction_yields blob c -> construction_fails blob e -> False.
Proof.
  intros [info creds Hj Hc Hs] [Hj' | info' Hj' Hc' | info' creds' Hj' Hc' Hs'];
    congruence.
Qed.

Lemma construction_unique blob c c' :
  construction_yields blob c -> construction_yields blob c' -> c = c'.
Proof. intros [i k Hj Hc Hs] [i' k' Hj' Hc' Hs']. congruence. Qed.

(** What initialisation returns depends on the environment alone. *)
Lemma initialize_result_environ st1 st2 :
  environ st1 = environ st2 ->
  fst (initialize_gcp_client st1) = fst (initialize_gcp_client st2).
Proof.
  intros He.
  destruct (environ st1 !! "GCP_SA_CREDENTIALS") as [blob|] eqn:H1.
  - assert (H2 : environ st2 !! "GCP_SA_CREDENTIALS" = Some blob) by now rewrite <- He.
    destruct (String.eqb_spec blob EmptyString) as [->|Hne].
    + now rewrite !initialize_empty.
    + destruct (construction_decided blob) as [[c Hy]|[e Hf]].
      * now rewrite !(initialize_well_formed _ blob c).
      * now rewrite !(initialize_malformed _ blob e).
  - assert (H2 : environ st2 !! "GCP_SA_CREDENTIALS" = None) by now rewrite <- He.
    now rewrite !initialize_absent.
Qed.

(** Initialisation, by cases: a client and an untouched state, or no
    client and at most one record more. *)
Lemma initialize_cases st :
  (exists blob c,
     environ st !! "GCP_SA_CREDENTIALS" = Some blob /\ blob <> EmptyString
     /\ construction_yields blob c
     /\ initialize_gcp_client st = (Return (Some c), st))
  \/ ((forall blob c, environ st !! "GCP_SA_CREDENTIALS" = Some blob ->
                      blob <> EmptyString -> ~ construction_yields blob c)
      /\ exists rs,
           (List.length rs <= 1)%nat
           /\ initialize_gcp_client st
              = (Return None,
                 {| environ := environ st; globals := globals st;
                    records := (records st ++ rs)%list;
                    transfers := transfers st; backend := backend st |})).
Proof.
  destruct st as [env g recs tr w]. simpl.
  destruct (env !! "GCP_SA_CREDENTIALS") as [blob|] eqn:H.
  - destruct (String.eqb_spec blob EmptyString) as [->|Hne].
    + right. split; [intros b c [= <-]; congruence|].
      exists []. rewrite initialize_empty by exact H.
      simpl. rewrite app_nil_r. auto.
    + destruct (construction_decided blob) as [[c Hy]|[e Hf]].
      * left. exists blob, c. repeat split; try assumption.
        now apply (initialize_well_formed _ blob c).
      * right. split.
        { intros b c [= <-] _ Hy. exact (construction_exclusive _ _ _ Hy Hf). }
        eexists [_]. rewrite (initialize_malformed _ blob e) by assumption.
        simpl. auto.
  - right. split; [intros b c [=]|].
    exists []. rewrite initialize_absent by exact H.
    simpl. rewrite app_nil_r. auto.
Qed.

(** One operation: the globals stay, the log and the trace of transfers
    grow at their end, and the backend is reached by an enabled upload
    only. *)
Lemma step_effect op st :
  exists rs ts w,
    step op st
    = {| environ := match op with
                    | Setenv k v => <[k := v]> (environ st)
                    | Unsetenv k => delete k (environ st)
                    | _ => environ st
                    end;
         globals := globals st;
         records := (records st ++ rs)%list;
         transfers := (transfers st ++ ts)%list;
         backend := w |}
    /\ List.length ts = (if requests_transfer st op then 1 else 0)%nat
    /\ (ts = [] -> w = backend st).
Proof.
  destruct op as [|p|p b|k v|k]; simpl.
  - destruct (initialize_returns st) as (r & rs & ->).
    exists rs, [], (backend st). simpl. rewrite app_nil_r. auto.
  - rewrite guess_content_type_run. simpl.
    destruct st as [env g recs tr w]. simpl.
    destruct (truthy _); [exists [] | eexists [_]]; exists [], w;
      simpl; rewrite ?app_nil_r; auto.
  - destruct (gcs_client (globals st)) as [c|] eqn:Hc.
    + destruct (validate_cases (chosen_bucket st b)) as [Hv|[e Hv]]; rewrite Hv.
      * rewrite (upload_enabled_run _ c) by assumption. simpl.
        destruct (upload_from_filename _ _ _) as [[[]|e] w]; simpl.
        -- eexists _, [_], w. split; [reflexivity|]. split; [reflexivity | discriminate].
        -- eexists _, [_], w. split; [reflexivity|]. split; [reflexivity | discriminate].
      * rewrite (upload_rejected_run _ c _ _ e) by assumption. simpl.
        eexists _, [], (backend st).
        split; [rewrite (app_nil_r (transfers st)); reflexivity | auto].
    + rewrite upload_disabled_run by exact Hc. simpl.
      destruct st as [env g recs tr w]. simpl.
      exists [], [], w. rewrite !app_nil_r. auto.
  - destruct st as [env g recs tr w]. simpl.
    exists [], [], w. rewrite !app_nil_r. auto.
  - destruct st as [env g recs tr w]. simpl.
    exists [], [], w. rewrite !app_nil_r. auto.
Qed.

Lemma run_cons op ops st : run (op :: ops) st = run ops (step op st).
Proof. reflexivity. Qed.

End MoreGatewayFacts.

(** ** The gateway: further properties *)

Section Extras.
Context {L : Libraries}.
Implicit Types (st : process) (c : client) (e : exception).

(** X3. A successful upload of a file whose type is known, to a bucket
    whose name has passed the check. The service
    receives one blob: in the chosen bucket, named after the base name
    of the path, with the guessed content type; the upload logs the
    path, the type and the URL, in that order, and returns the blob's
    public URL. *)
Theorem upload_success_known_type st c file_path bucket_arg t w :
  gcs_client (globals st) = Some c ->
  validate_bucket_name (chosen_bucket st bucket_arg) = Return tt ->
  guessed file_path = Some t ->
  t <> EmptyString ->
  let blob := {| blob_bucket := {| bucket_client := c;
                                   bucket_name := chosen_bucket st bucket_arg |};
                 blob_name := posixpath.basename file_path;
                 content_type := Some t |} in
  upload_from_filename blob file_path (backend st) = (Return tt, w) ->
  upload_to_gcs file_path bucket_arg st
  = (Return (public_url blob),
     {| environ := environ st; globals := globals st;
        records :=
          (records st
           ++ [{| levelname := INFO;
                  message := "Uploading file to Google Cloud Storage: " ++ file_path |};
               {| levelname := INFO; message := "Using content type: " ++ t |};
               {| levelname := INFO;
                  message := "File uploaded successfully to GCS: " ++ public_url blob |}])%list;
        transfers := (transfers st ++ [(blob, file_path)])%list;
        backend := w |}).
Proof.
  intros Hc Hv Hg Ht blob Hw.
  assert (Htr : truthy (Some t) = true) by (destruct t; [congruence | reflexivity]).
  rewrite (upload_enabled_run _ c) by assumption.
  unfold target, prepare_blob, preamble. rewrite Hg, Htr. simpl.
  change (set_content_type _ _) with blob. rewrite Hw. reflexivity.
Qed.

(** X4. A successful upload of a file whose type is not known ([None]
    or the empty string), to a bucket whose name has passed the check.
    The warning comes first, no line names a
    content type, and the blob carries none: the service is left to
    choose. *)
Theorem upload_success_unknown_type st c file_path bucket_arg w :
  gcs_client (globals st) = Some c ->
  validate_bucket_name (chosen_bucket st bucket_arg) = Return tt ->
  truthy (guessed file_path) = false ->
  let blob := {| blob_bucket := {| bucket_client := c;
                                   bucket_name := chosen_bucket st bucket_arg |};
                 blob_name := posixpath.basename file_path;
                 content_type := None |} in
  upload_from_filename blob file_path (backend st) = (Return tt, w) ->
  upload_to_gcs file_path bucket_arg st
  = (Return (public_url blob),
     {| environ := environ st; globals := globals st;
        records :=
          (records st
           ++ [{| levelname := WARNING;
                  message := "Could not determine content type for " ++ file_path
                             ++ ", this may default to application/octet-stream" |};
               {| levelname := INFO;
                  message := "Uploading file to Google Cloud Storage: " ++ file_path |};
               {| levelname := INFO;
                  message := "File uploaded successfully to GCS: " ++ public_url blob |}])%list;
        transfers := (transfers st ++ [(blob, file_path)])%list;
        backend := w |}).
Proof.
  intros Hc Hv Hg blob Hw.
  rewrite (upload_enabled_run _ c) by assumption.
  unfold target, prepare_blob, preamble. rewrite Hg. simpl.
  change (bucket_blob _ _) with blob. rewrite Hw. reflexivity.
Qed.

(** X5. On an enabled gateway the upload raises nothing of its own:
    an exception that leaves it is the one the check of the bucket name
    raised, with no transfer requested, or the one the transfer raised;
    and a returned value is the public URL of the blob that was
    transferred. *)
Theorem upload_error_origin st c file_path bucket_arg :
  gcs_client (globals st) = Some c ->
  (forall e, fst (upload_to_gcs file_path bucket_arg st) = Raise e ->
     (validate_bucket_name (chosen_bucket st bucket_arg) = Raise e
      /\ transfers (snd (upload_to_gcs file_path bucket_arg st)) = transfers st
      /\ backend (snd (upload_to_gcs file_path bucket_arg st)) = backend st)
     \/ (validate_bucket_name (chosen_bucket st bucket_arg) = Return tt
         /\ exists w, upload_from_filename (target st c file_path bucket_arg)
                        file_path (backend st) = (Raise e, w)))
  /\ (forall url, fst (upload_to_gcs file_path bucket_arg st) = Return url ->
        validate_bucket_name (chosen_bucket st bucket_arg) = Return tt
        /\ url = public_url (target st c file_path bucket_arg)
        /\ exists w, upload_from_filename (target st c file_path bucket_arg) file_path
                       (backend st) = (Return tt, w)).
Proof.
  intros Hc.
  destruct (validate_cases (chosen_bucket st bucket_arg)) as [Hv|[e0 Hv]].
  - rewrite (upload_enabled_run _ c) by assumption. simpl.
    destruct (upload_from_filename _ _ _) as [[[]|e1] w]; simpl; split.
    + discriminate.
    + intros url [= <-]. eauto.
    + intros e [= <-]. right. eauto.
    + discriminate.
  - rewrite (upload_rejected_run _ c _ _ e0) by assumption. simpl. split.
    + intros e [= <-]. left. auto.
    + discriminate.
Qed.

(** X6. A disabled gateway never reaches the storage service: after
    any sequence of operations no transfer has been requested and the
    backend is as it was. *)
Theorem disabled_never_contacts_backend st ops :
  gcs_client (globals st) = None ->
  transfers (run ops st) = transfers st /\ backend (run ops st) = backend st.
Proof.
  revert st. induction ops as [|op ops IH]; intros st Hc; [split; reflexivity|].
  rewrite run_cons.
  destruct (step_effect op st) as (rs & ts & w & Hstep & Hlen & Hw).
  assert (Hts : ts = []).
  { destruct ts; [reflexivity|]. destruct op; simpl in Hlen;
      rewrite ?Hc in Hlen; discriminate. }
  subst ts. specialize (Hw eq_refl). subst w.
  destruct (IH (step op st)) as [H1 H2].
  - now rewrite step_globals.
  - rewrite H1, H2, Hstep. simpl. now rewrite app_nil_r.
Qed.

(** X7. Across any sequence of operations the log and the trace of
    transfers only grow at their end; the environment changes by
    [Setenv] and [Unsetenv] alone, never by a call into the module; and
    without an upload call the service is not reached. *)
Theorem run_frame st ops :
  (exists rs ts,
     records (run ops st) = (records st ++ rs)%list
     /\ transfers (run ops st) = (transfers st ++ ts)%list)
  /\ (forallb (fun op => negb (changes_environ op)) ops = true ->
      environ (run ops st) = environ st)
  /\ (forallb (fun op => negb (is_upload op)) ops = true ->
      transfers (run ops st) = transfers st /\ backend (run ops st) = backend st).
Proof.
  revert st. induction ops as [|op ops IH]; intros st.
  - split; [exists [], []; now rewrite !app_nil_r | auto].
  - rewrite run_cons.
    destruct (step_effect op st) as (rs & ts & w & Hstep & Hlen & Hw).
    destruct (IH (step op st)) as ((rs' & ts' & Hr & Ht) & Henv & Hup).
    split; [|split].
    + exists (rs ++ rs')%list, (ts ++ ts')%list.
      rewrite Hr, Ht, Hstep. simpl. now rewrite !app_assoc.
    + simpl. intros [Hop Hops]%andb_true_iff.
      rewrite (Henv Hops), Hstep. simpl.
      now destruct op.
    + simpl. intros [Hop Hops]%andb_true_iff.
      destruct (Hup Hops) as [H1 H2]. rewrite H1, H2.
      apply negb_true_iff in Hop.
      assert (Hts : ts = [])
        by (destruct ts; [reflexivity | destruct op; discriminate]).
      subst ts. rewrite (Hw eq_refl) in Hstep. rewrite Hstep. simpl.
      now rewrite app_nil_r.
Qed.

(** X8. An upload call requests exactly one transfer when the gateway
    is enabled and the bucket name passes the check, whether the
    transfer then succeeds or fails, and none otherwise; no other
    operation requests any: after a sequence of operations the trace
    has grown by the number of such upload calls, which is at most the
    number of upload calls. *)
Theorem one_transfer_per_upload st ops :
  List.length (transfers (run ops st))
  = (List.length (transfers st)
     + List.length (List.filter (requests_transfer st) ops))%nat
  /\ (List.length (List.filter (requests_transfer st) ops) <= uploads_in ops)%nat.
Proof.
  split.
  - revert st. induction ops as [|op ops IH]; intros st; [simpl; lia|].
    rewrite run_cons, IH.
    destruct (step_effect op st) as (rs & ts & w & Hstep & Hlen & _).
    assert (Hsame : List.filter (requests_transfer (step op st)) ops
                    = List.filter (requests_transfer st) ops).
    { apply List.filter_ext. intros o. unfold requests_transfer, chosen_bucket.
      now rewrite step_globals. }
    rewrite Hsame, Hstep. simpl transfers. rewrite length_app, Hlen.
    simpl. destruct (requests_transfer st op); simpl; lia.
  - unfold uploads_in. induction ops as [|op ops IH]; simpl; [lia|].
    destruct op as [|p|p b|k v|k]; simpl; try exact IH.
    destruct (gcs_client (globals st)); [|lia].
    destruct (validate_bucket_name _); simpl; lia.
Qed.

(** X9. Importing the module never raises. It leaves the environment,
    the trace of transfers and the backend untouched, logs at most one
    record, binds the bucket name of the environment (also as the
    default of [bucket_name]), and enables the gateway exactly when the
    environment holds a non-empty credential blob from which a client
    can be built. *)
Theorem import_module_outcome st :
  exists st' rs,
    import_module st = (Return tt, st')
    /\ environ st' = environ st
    /\ records st' = (records st ++ rs)%list
    /\ (List.length rs <= 1)%nat
    /\ transfers st' = transfers st
    /\ backend st' = backend st
    /\ GCP_BUCKET_NAME (globals st') = environ st !! "GCP_BUCKET_NAME"
    /\ upload_to_gcs_defaults (globals st') = environ st !! "GCP_BUCKET_NAME"
    /\ (forall c, gcs_client (globals st') = Some c
                  <-> exists blob,
                        environ st !! "GCP_SA_CREDENTIALS" = Some blob
                        /\ blob <> EmptyString
                        /\ construction_yields blob c).
Proof.
  unfold import_module, mbind, M_bind, os_getenv, assign_GCP_BUCKET_NAME,
    assign_gcs_client, bind_upload_to_gcs_defaults, read_globals.
  match goal with
  | |- context [initialize_gcp_client ?s] =>
      destruct (initialize_cases s)
        as [(blob & c & He & Hne & Hy & ->) | (Hno & rs & Hrs & ->)]
  end; simpl in *.
  - eexists _, []. split; [reflexivity|]. simpl. rewrite app_nil_r.
    repeat split; auto.
    + intros [= <-]. eauto.
    + intros (blob' & He' & _ & Hy'). rewrite He in He'. injection He' as <-.
      f_equal. exact (construction_unique _ _ _ Hy Hy').
  - eexists _, rs. split; [reflexivity|]. simpl.
    repeat split; auto.
    + discriminate.
    + intros (blob & He & Hne & Hy). exfalso. exact (Hno blob c He Hne Hy).
Qed.

(** X10. Calling [initialize_gcp_client] again on a disabled gateway,
    once working credentials have appeared in the environment, returns
    a client but does not store it: the gateway stays disabled and the
    next upload still fails. *)
Theorem reinitialize_does_not_enable st blob c file_path bucket_arg :
  gcs_client (globals st) = None ->
  environ st !! "GCP_SA_CREDENTIALS" = Some blob ->
  blob <> EmptyString ->
  construction_yields blob c ->
  fst (initialize_gcp_client st) = Return (Some c)
  /\ upload_to_gcs file_path bucket_arg (snd (initialize_gcp_client st))
     = (Raise not_initialized, st).
Proof.
  intros Hc He Hne Hy.
  rewrite (initialize_well_formed _ blob c) by assumption. simpl.
  split; [reflexivity | now apply upload_disabled_run].
Qed.

(** X11. A path that ends in a slash has the empty base name: an
    enabled upload of it, to a bucket whose name passes the check, asks
    the service for a blob with the empty name; the gateway does not
    check the name of the blob. *)
Theorem upload_trailing_slash_empty_key st c dir bucket_arg :
  gcs_client (globals st) = Some c ->
  validate_bucket_name (chosen_bucket st bucket_arg) = Return tt ->
  exists blob,
    transfers (snd (upload_to_gcs (dir ++ "/") bucket_arg st))
    = (transfers st ++ [(blob, (dir ++ "/")%string)])%list
    /\ blob_name blob = EmptyString.
Proof.
  intros Hc Hv. exists (target st c (dir ++ "/") bucket_arg). split.
  - rewrite (upload_enabled_run _ c) by assumption. simpl.
    now destruct (upload_from_filename _ _ _) as [[[]|e] w].
  - unfold target, prepare_blob.
    assert (Hb : posixpath.basename (dir ++ "/") = EmptyString)
      by now apply basename_join.
    destruct (truthy _); simpl; exact Hb.
Qed.

(** X12. A file name without a dot, in a directory whose path holds no
    colon, has no extension: with no type registered for the empty
    extension the content type is unknown and the warning is logged. *)
Theorem no_extension_unknown st dir name :
  Str.contains ":" dir = false ->
  Str.contains "/" name = false ->
  Str.contains "." name = false ->
  types_map !! EmptyString = None ->
  guess_content_type (dir ++ String "/" name) st
  = (Return None, emit (unknown_type_warning (dir ++ String "/" name)) st).
Proof.
  intros Hcol Hs Hd Htm. rewrite guess_content_type_run. unfold guessed.
  rewrite guess_type_no_extension, Htm;
    [reflexivity | now apply splittype_no_colon | now apply splitext_no_dot].
Qed.

(** X13. A file name that starts with dots and holds no other dot (a
    hidden file such as [.bashrc], but also [.pdf]) has no extension
    either: what follows the leading dots is not looked up, and the
    content type is unknown. *)
Theorem dotfile_unknown st dir dots rest :
  Str.contains ":" dir = false ->
  Str.all_dots dots = true ->
  dots <> EmptyString ->
  Str.contains "/" rest = false ->
  Str.contains "." rest = false ->
  types_map !! EmptyString = None ->
  guess_content_type (dir ++ String "/" (dots ++ rest)) st
  = (Return None, emit (unknown_type_warning (dir ++ String "/" (dots ++ rest))) st).
Proof.
  intros Hcol Hdots Hne Hs Hd Htm. rewrite guess_content_type_run. unfold guessed.
  rewrite guess_type_no_extension, Htm;
    [reflexivity | now apply splittype_no_colon | now apply splitext_leading_dots].
Qed.

(** X14. A path that starts with [data:] is read as a data URL: the
    type table is not consulted, and without a comma in the rest the
    content type is unknown whatever the extension. *)
Theorem data_scheme_unknown st rest :
  Str.contains "," rest = false ->
  guess_content_type ("data:" ++ rest) st
  = (Return None, emit (unknown_type_warning ("data:" ++ rest)) st).
Proof.
  intros Hcomma. rewrite guess_content_type_run. unfold guessed.
  assert (Hg : mimetypes.guess_type types_map ("data:" ++ rest) = (None, None)).
  { unfold mimetypes.guess_type, mimetypes.guess_type_fuel.
    assert (Hs : urllib._splittype ("data:" ++ rest) = (Some "data", rest))
      by reflexivity.
    rewrite Hs, bool_decide_eq_true_2 by reflexivity.
    unfold mimetypes.guess_data_url. unfold Str.contains in Hcomma.
    apply Z.leb_gt in Hcomma.
    replace (Str.find "," rest <? 0) with true by (symmetry; apply Z.ltb_lt; lia).
    reflexivity. }
  rewrite Hg. reflexivity.
Qed.

(** X16. A call takes nothing from the environment of the moment: with
    another environment an upload, and a content-type guess, return the
    same result and leave the same log, transfers and backend. *)
Theorem calls_ignore_environ st env file_path bucket_arg :
  upload_to_gcs file_path bucket_arg (with_environ env st)
  = (fst (upload_to_gcs file_path bucket_arg st),
     with_environ env (snd (upload_to_gcs file_path bucket_arg st)))
  /\ guess_content_type file_path (with_environ env st)
     = (fst (guess_content_type file_path st),
        with_environ env (snd (guess_content_type file_path st))).
Proof.
  split.
  - destruct (gcs_client (globals st)) as [c|] eqn:Hc.
    + destruct (validate_cases (chosen_bucket st bucket_arg)) as [Hv|[e Hv]].
      * rewrite !(upload_enabled_run _ c) by assumption. simpl.
        change (target (with_environ env st) c file_path bucket_arg)
          with (target st c file_path bucket_arg).
        now destruct (upload_from_filename _ _ _) as [[[]|e] w].
      * now rewrite !(upload_rejected_run _ c _ _ e) by assumption.
    + now rewrite !upload_disabled_run.
  - rewrite !guess_content_type_run. simpl. now destruct (truthy _).
Qed.

End Extras.

(** X15. The alias loop of [mimetypes.guess_type] ends on every input
    after at most one replacement: with any fuel above zero it returns,
    unchanged when the extension is no alias and with the split of the
    expanded name otherwise; so [guess_type] is defined on every path
    and table. *)
Theorem alias_loop_terminates (n : nat) (tm : gmap string string) (base ext url : string) :
  (exists r,
     mimetypes.suffix_loop (S n) base ext = Some r
     /\ (mimetypes.suffix_map !! Str.lower ext = None -> r = (base, ext))
     /\ (forall repl, mimetypes.suffix_map !! Str.lower ext = Some repl ->
           r = posixpath.splitext (base ++ repl)))
  /\ mimetypes.guess_type_fuel (S n) tm url = Some (mimetypes.guess_type tm url).
Proof.
  split.
  - destruct (mimetypes.suffix_map !! Str.lower ext) as [repl|] eqn:E.
    + rewrite (suffix_loop_step _ _ _ repl) by exact E.
      pose proof (suffix_round base repl (suffix_map_range _ _ E)) as Hstop.
      destruct (posixpath.splitext (base ++ repl)) as [b' e'] eqn:Es.
      simpl in Hstop. exists (b', e'). rewrite suffix_loop_stop by exact Hstop.
      split; [reflexivity|]. split; [discriminate|]. now intros ? [= <-].
    + exists (base, ext). rewrite suffix_loop_stop by exact E.
      split; [reflexivity|]. split; [reflexivity | discriminate].
  - unfold mimetypes.guess_type, mimetypes.guess_type_fuel.
    destruct (urllib._splittype url) as [scheme rest].
    case_bool_decide; [reflexivity|].
    destruct (posixpath.splitext rest) as [b e].
    destruct (suffix_loop_enough n b e) as ([b' e'] & -> & ->). reflexivity.
Qed.


(** * The claims on a concrete process

    The test double instantiates the theorems above; the two claims the
    code does not meet are refuted on it. *)

#[local] Existing Instance Fake.libraries.

Lemma upload_disabled_fails_witness :
  gcs_client (globals (Fake.booted [] Fake.clips None)) = None
  /\ upload_to_gcs "/tmp/a/clip.mp4" (Passed (Some "media"))
       (Fake.booted [] Fake.clips None)
     = (Raise (ValueError "GCS client is not initialized. Skipping file upload."),
        Fake.booted [] Fake.clips None).
Proof.
  split; [vm_compute; reflexivity|].
  apply upload_disabled_fails. vm_compute. reflexivity.
Defined.

Lemma initialize_never_raises_witness :
  fst (initialize_gcp_client (Fake.boot Fake.bad_env [] None)) = Return None.
Proof.
  apply (proj2 (proj2 (initialize_never_raises (Fake.boot Fake.bad_env [] None)))
           "not json"
           {| exc_type := "JSONDecodeError";
              exc_str := "Expecting value: line 1 column 1 (char 0)" |}).
  - vm_compute. reflexivity.
  - apply fails_json. vm_compute. reflexivity.
Defined.

Lemma guess_content_type_returns_witness :
  guess_content_type "report.pdf" (Fake.booted Fake.good_env [] None)
  = (Return (Some "application/pdf"), Fake.booted Fake.good_env [] None)
  /\ guess_content_type "data.unknownext" (Fake.booted Fake.good_env [] None)
     = (Return None,
        emit (unknown_type_warning "data.unknownext")
             (Fake.booted Fake.good_env [] None)).
Proof.
  destruct (guess_content_type_returns (Fake.booted Fake.good_env [] None))
    as (H1 & H2 & _); [vm_compute; reflexivity | vm_compute; reflexivity |].
  split; assumption.
Defined.

(** Two files with the same base name in two directories: one key, and
    in the test double the second transfer replaces the first. *)
Lemma upload_key_is_basename_witness :
  let st := Fake.booted Fake.good_env Fake.clips None in
  let first := upload_to_gcs "/tmp/a/clip.mp4" Omitted st in
  let second := upload_to_gcs "/tmp/b/clip.mp4" Omitted (snd first) in
  (exists blob1 blob2,
     transfers (snd second)
     = (transfers st ++ [(blob1, "/tmp/a/clip.mp4"); (blob2, "/tmp/b/clip.mp4")])%list
     /\ blob_name blob1 = "clip.mp4"
     /\ blob_name blob2 = "clip.mp4"
     /\ blob_bucket blob2 = blob_bucket blob1)
  /\ fst first = Return "https://storage.googleapis.com/media/clip.mp4"
  /\ fst second = Return "https://storage.googleapis.com/media/clip.mp4"
  /\ Fake.objects (backend (snd second)) !! ("media", "clip.mp4")
     = Some {| Fake.data := "second take"; Fake.stored_type := Some "video/mp4" |}.
Proof.
  intros st first second.
  destruct (upload_key_is_basename st "{private_key: k}"
              "/tmp/a/clip.mp4" "/tmp/b/clip.mp4" Omitted)
    as (blob1 & blob2 & Ht & H1 & H2 & Hb & _);
    [vm_compute; reflexivity | vm_compute; reflexivity | vm_compute; reflexivity |].
  split; [exists blob1, blob2; auto|].
  vm_compute. auto.
Defined.

(** The default bucket is the one of the environment at import, also
    after the variable has changed. *)
Lemma upload_bucket_choice_witness :
  let boot := Fake.boot Fake.good_env Fake.clips None in
  let st := run [Setenv "GCP_BUCKET_NAME" "elsewhere"] (snd (import_module boot)) in
  gcs_client (globals st) = Some "{private_key: k}"
  /\ (exists blob,
        transfers (snd (upload_to_gcs "/tmp/a/clip.mp4" Omitted st))
        = (transfers st ++ [(blob, "/tmp/a/clip.mp4")])%list
        /\ bucket_name (blob_bucket blob) = Some "media")
  /\ (exists blob,
        transfers (snd (upload_to_gcs "/tmp/a/clip.mp4" (Passed (Some "archive")) st))
        = (transfers st ++ [(blob, "/tmp/a/clip.mp4")])%list
        /\ bucket_name (blob_bucket blob) = Some "archive").
Proof.
  intros boot st.
  split; [vm_compute; reflexivity|]. split.
  - apply (upload_bucket_choice boot [Setenv "GCP_BUCKET_NAME" "elsewhere"]
             "{private_key: k}" "/tmp/a/clip.mp4" Omitted);
      vm_compute; reflexivity.
  - apply (upload_bucket_choice boot [Setenv "GCP_BUCKET_NAME" "elsewhere"]
             "{private_key: k}" "/tmp/a/clip.mp4" (Passed (Some "archive")));
      vm_compute; reflexivity.
Defined.

(** A simulated permission denial. *)
Lemma upload_backend_error_reraised_witness :
  let st := Fake.booted Fake.good_env Fake.clips (Some Fake.Forbidden) in
  exists st',
    upload_to_gcs "/tmp/a/clip.mp4" Omitted st = (Raise Fake.Forbidden, st')
    /\ records st'
       = (records st ++ preamble "/tmp/a/clip.mp4"
          ++ [{| levelname := ERROR;
                 message := "Error uploading file to GCS: 403 Permission denied" |}])%list
    /\ transfers st'
       = (transfers st
          ++ [(target st "{private_key: k}" "/tmp/a/clip.mp4" Omitted,
               "/tmp/a/clip.mp4")])%list
    /\ backend st' = backend st.
Proof.
  intros st.
  apply (upload_backend_error_reraised st "{private_key: k}" "/tmp/a/clip.mp4"
           Omitted Fake.Forbidden (backend st));
    vm_compute; reflexivity.
Defined.

Lemma failures_logged_by_text_witness :
  initialize_gcp_client (Fake.boot Fake.bad_env [] None)
  = (Return None,
     emit {| levelname := ERROR;
             message := "Failed to initialize GCS client: "
                        ++ "Expecting value: line 1 column 1 (char 0)" |}
          (Fake.boot Fake.bad_env [] None)).
Proof.
  apply (proj1 (failures_logged_by_text (Fake.boot Fake.bad_env [] None))
           "not json"
           {| exc_type := "JSONDecodeError";
              exc_str := "Expecting value: line 1 column 1 (char 0)" |}).
  - vm_compute. reflexivity.
  - discriminate.
  - apply fails_json. vm_compute. reflexivity.
Defined.

(** C7 refuted: a disabled upload fails with nothing logged and an error
    text that names neither the file nor the bucket; and after a denied
    transfer no record of the log names the bucket. *)
Lemma context_not_logged :
  fst (upload_to_gcs "/tmp/a/clip.mp4" (Passed (Some "media"))
         (Fake.booted [] Fake.clips None))
  = Raise not_initialized
  /\ records (snd (upload_to_gcs "/tmp/a/clip.mp4" (Passed (Some "media"))
                     (Fake.booted [] Fake.clips None)))
     = []
  /\ carries_context "/tmp/a/clip.mp4" "media" (exc_str not_initialized) = false
  /\ fst (upload_to_gcs "/tmp/a/clip.mp4" (Passed (Some "media"))
            (Fake.booted Fake.good_env Fake.clips (Some Fake.Forbidden)))
     = Raise Fake.Forbidden
  /\ existsb (fun r => carries_context "/tmp/a/clip.mp4" "media" (message r))
       (records (snd (upload_to_gcs "/tmp/a/clip.mp4" (Passed (Some "media"))
                        (Fake.booted Fake.good_env Fake.clips (Some Fake.Forbidden)))))
     = false.
Proof. repeat apply conj; vm_compute; reflexivity. Qed.

(** Upper and lower case of the plain extension give the same type. *)
Lemma content_type_by_last_extension_witness :
  fst (guess_content_type "/tmp/Report.PDF" (Fake.booted Fake.good_env [] None))
  = Return (Some "application/pdf")
  /\ fst (guess_content_type "/tmp/Report.tar.gz" (Fake.booted Fake.good_env [] None))
     = Return (Some "application/x-tar").
Proof.
  destruct (content_type_by_last_extension (Fake.booted Fake.good_env [] None)
              "tmp/" "eport" "PDF" "R")
    as (H1 & _);
    [reflexivity | discriminate | reflexivity | reflexivity | reflexivity |].
  destruct (content_type_by_last_extension (Fake.booted Fake.good_env [] None)
              "tmp/" "eport" "tar" "R")
    as (_ & H2 & _);
    [reflexivity | discriminate | reflexivity | reflexivity | reflexivity |].
  split.
  - etransitivity; [apply H1; vm_compute; reflexivity | vm_compute; reflexivity].
  - etransitivity; [apply (H2 "gz" "gzip"); vm_compute; reflexivity
                   | vm_compute; reflexivity].
Defined.

(** C8 refuted: the two paths differ in the case of the suffix only and
    get different answers; and with a type registered for [.tar.gz] the
    answer is still the type of [.tar]. *)
Lemma suffix_matching_counterexample :
  Str.lower "/tmp/backup.tar.GZ" = Str.lower "/tmp/backup.tar.gz"
  /\ fst (guess_content_type "/tmp/backup.tar.gz" (Fake.boot [] [] None))
     = Return (Some "application/x-tar")
  /\ fst (guess_content_type "/tmp/backup.tar.GZ" (Fake.boot [] [] None))
     = Return None
  /\ Fake.table_with_tar_gz !! ".tar.gz" = Some "application/x-gtar-compressed"
  /\ fst (guess_content_type "/tmp/backup.tar.gz"
            (Fake.boot_with Fake.table_with_tar_gz [] [] None))
     = Return (Some "application/x-tar").
Proof. repeat apply conj; vm_compute; reflexivity. Qed.

Lemma globals_never_reassigned_witness :
  fst (upload_to_gcs "/tmp/a/clip.mp4" Omitted
         (run [Setenv "GCP_SA_CREDENTIALS" "{private_key: k}";
               Call_initialize_gcp_client;
               Call_upload_to_gcs "/tmp/b/clip.mp4" (Passed (Some "media"))]
              (Fake.booted [] Fake.clips None)))
  = Raise (ValueError "GCS client is not initialized. Skipping file upload.").
Proof.
  apply (proj2 (globals_never_reassigned (Fake.booted [] Fake.clips None) _)).
  vm_compute. reflexivity.
Defined.

Lemma initialize_diagnostics_witness :
  initialize_gcp_client (Fake.boot [] [] None) = (Return None, Fake.boot [] [] None)
  /\ exists st',
       initialize_gcp_client (Fake.boot Fake.bad_env [] None) = (Return None, st')
       /\ records st'
          = [{| levelname := ERROR;
                message := "Failed to initialize GCS client: "
                           ++ "Expecting value: line 1 column 1 (char 0)" |}].
Proof.
  split.
  - apply (proj1 (initialize_diagnostics (Fake.boot [] [] None))).
    vm_compute. reflexivity.
  - apply (proj2 (proj2 (initialize_diagnostics (Fake.boot Fake.bad_env [] None)))
             "not json"
             {| exc_type := "JSONDecodeError";
                exc_str := "Expecting value: line 1 column 1 (char 0)" |}).
    + vm_compute. reflexivity.
    + discriminate.
    + apply fails_json. vm_compute. reflexivity.
Defined.

(** ** The model of the standard library on sample paths *)

Example guess_type_samples :
  let guess := mimetypes.guess_type mimetypes._types_map_default in
  guess "report.pdf" = (Some "application/pdf", None)
  /\ guess "data.unknownext" = (None, None)
  /\ guess "/tmp/a.tar.gz" = (Some "application/x-tar", Some "gzip")
  /\ guess "/tmp/a.TGZ" = (Some "application/x-tar", Some "gzip")
  /\ guess "/tmp/x.tar.Z" = (Some "application/x-tar", Some "compress")
  /\ guess "/tmp/x.tar.z" = (None, None)
  /\ guess "/tmp/.tar.gz" = (None, Some "gzip")
  /\ guess "/tmp/.bashrc" = (None, None)
  /\ guess "/tmp/a.svgz" = (Some "image/svg+xml", Some "gzip")
  /\ guess "C:report.PDF" = (Some "application/pdf", None)
  /\ guess "data:report.pdf" = (None, None)
  /\ guess "data:text/html;x,y" = (Some "text/html", None).
Proof. repeat apply conj; vm_compute; reflexivity. Qed.

Example splitext_samples :
  posixpath.splitext "/tmp/a.tar.gz" = ("/tmp/a.tar", ".gz")
  /\ posixpath.splitext "/tmp/.bashrc" = ("/tmp/.bashrc", "")
  /\ posixpath.splitext "a.b/c" = ("a.b/c", "")
  /\ posixpath.splitext "/tmp/...pdf" = ("/tmp/...pdf", "")
  /\ posixpath.basename "/tmp/a/b.txt" = "b.txt"
  /\ posixpath.basename "/tmp/a/" = ""
  /\ posixpath.basename "b.txt" = "b.txt".
Proof. repeat apply conj; vm_compute; reflexivity. Qed.

(** ** The further properties on a concrete process *)

Lemma upload_success_known_type_witness :
  fst (upload_to_gcs "/tmp/a/clip.mp4" Omitted
         (Fake.booted Fake.good_env Fake.clips None))
  = Return "https://storage.googleapis.com/media/clip.mp4".
Proof.
  rewrite (upload_success_known_type
             (Fake.booted Fake.good_env Fake.clips None)
             "{private_key: k}" "/tmp/a/clip.mp4" Omitted "video/mp4"
             {| Fake.local_files := list_to_map Fake.clips;
                Fake.objects :=
                  {[ ("media", "clip.mp4") :=
                       {| Fake.data := "first take";
                          Fake.stored_type := Some "video/mp4" |} ]};
                Fake.fault := None |}).
  - cbn [fst]. vm_compute. reflexivity.
  - vm_compute. reflexivity.
  - vm_compute. reflexivity.
  - vm_compute. reflexivity.
  - discriminate.
  - vm_compute. reflexivity.
Defined.

Lemma upload_success_unknown_type_witness :
  fst (upload_to_gcs "/tmp/data.unknownext" (Passed (Some "archive"))
         (Fake.booted Fake.good_env [("/tmp/data.unknownext", "bytes")] None))
  = Return "https://storage.googleapis.com/archive/data.unknownext".
Proof.
  rewrite (upload_success_unknown_type
             (Fake.booted Fake.good_env [("/tmp/data.unknownext", "bytes")] None)
             "{private_key: k}" "/tmp/data.unknownext" (Passed (Some "archive"))
             {| Fake.local_files := {[ "/tmp/data.unknownext" := "bytes" ]};
                Fake.objects :=
                  {[ ("archive", "data.unknownext") :=
                       {| Fake.data := "bytes"; Fake.stored_type := None |} ]};
                Fake.fault := None |}).
  - cbn [fst]. vm_compute. reflexivity.
  - vm_compute. reflexivity.
  - vm_compute. reflexivity.
  - vm_compute. reflexivity.
  - vm_compute. reflexivity.
Defined.

(** A denied transfer, and a bucket name the check rejects. *)
Lemma upload_error_origin_witness :
  (exists w,
     upload_from_filename
       (target (Fake.booted Fake.good_env Fake.clips (Some Fake.Forbidden))
               "{private_key: k}" "/tmp/a/clip.mp4" Omitted)
       "/tmp/a/clip.mp4"
       (backend (Fake.booted Fake.good_env Fake.clips (Some Fake.Forbidden)))
     = (Raise Fake.Forbidden, w))
  /\ transfers (snd (upload_to_gcs "/tmp/a/clip.mp4" (Passed (Some "-media"))
                       (Fake.booted Fake.good_env Fake.clips None)))
     = transfers (Fake.booted Fake.good_env Fake.clips None).
Proof.
  split.
  - destruct (proj1 (upload_error_origin
                       (Fake.booted Fake.good_env Fake.clips (Some Fake.Forbidden))
                       "{private_key: k}" "/tmp/a/clip.mp4" Omitted
                       ltac:(vm_compute; reflexivity))
                Fake.Forbidden ltac:(vm_compute; reflexivity))
      as [(Hv & _) | (_ & H)]; [vm_compute in Hv; discriminate | exact H].
  - destruct (proj1 (upload_error_origin
                       (Fake.booted Fake.good_env Fake.clips None)
                       "{private_key: k}" "/tmp/a/clip.mp4" (Passed (Some "-media"))
                       ltac:(vm_compute; reflexivity))
                (ValueError "Bucket names must start and end with a number or letter.")
                ltac:(vm_compute; reflexivity))
      as [(_ & Ht & _) | (Hv & _)]; [exact Ht | vm_compute in Hv; discriminate].
Defined.

Lemma disabled_never_contacts_backend_witness :
  let st := Fake.booted [("GCP_BUCKET_NAME", "media")] Fake.clips None in
  let ops := [Call_upload_to_gcs "/tmp/a/clip.mp4" Omitted;
              Setenv "GCP_SA_CREDENTIALS" "{private_key: k}";
              Call_initialize_gcp_client;
              Call_upload_to_gcs "/tmp/b/clip.mp4" (Passed (Some "archive"))] in
  transfers (run ops st) = transfers st /\ backend (run ops st) = backend st.
Proof.
  intros st ops. apply (disabled_never_contacts_backend st ops).
  vm_compute. reflexivity.
Defined.

(** Three upload calls, one of them to a bucket name that the check
    rejects: two transfers. *)
Lemma one_transfer_per_upload_witness :
  let st := Fake.booted Fake.good_env Fake.clips None in
  let ops := [Call_upload_to_gcs "/tmp/a/clip.mp4" Omitted;
              Call_guess_content_type "/tmp/a/clip.mp4";
              Call_upload_to_gcs "/tmp/missing.bin" (Passed (Some "-media"));
              Unsetenv "GCP_BUCKET_NAME";
              Call_upload_to_gcs "/tmp/b/clip.mp4" Omitted] in
  List.length (transfers (run ops st)) = (List.length (transfers st) + 2)%nat.
Proof.
  intros st ops.
  etransitivity; [apply (proj1 (one_transfer_per_upload st ops))|].
  vm_compute. reflexivity.
Defined.

Lemma reinitialize_does_not_enable_witness :
  let st := run [Setenv "GCP_SA_CREDENTIALS" "{private_key: k}"]
                (Fake.booted [("GCP_BUCKET_NAME", "media")] Fake.clips None) in
  fst (initialize_gcp_client st) = Return (Some "{private_key: k}")
  /\ upload_to_gcs "/tmp/a/clip.mp4" Omitted (snd (initialize_gcp_client st))
     = (Raise not_initialized, st).
Proof.
  intros st.
  apply (reinitialize_does_not_enable st "{private_key: k}" "{private_key: k}"
           "/tmp/a/clip.mp4" Omitted).
  - vm_compute. reflexivity.
  - vm_compute. reflexivity.
  - discriminate.
  - apply (@yields_client Fake.libraries _ _ "{private_key: k}" "{private_key: k}");
      vm_compute; reflexivity.
Defined.

Lemma upload_trailing_slash_empty_key_witness :
  let st := Fake.booted Fake.good_env Fake.clips None in
  exists blob,
    transfers (snd (upload_to_gcs "/tmp/a/" Omitted st))
    = (transfers st ++ [(blob, "/tmp/a/")])%list
    /\ blob_name blob = EmptyString.
Proof.
  intros st.
  apply (upload_trailing_slash_empty_key st "{private_key: k}" "/tmp/a" Omitted);
    vm_compute; reflexivity.
Defined.

Lemma no_extension_unknown_witness :
  guess_content_type "/srv/www/README" (Fake.boot [] [] None)
  = (Return None,
     emit (unknown_type_warning "/srv/www/README") (Fake.boot [] [] None)).
Proof.
  apply (no_extension_unknown (Fake.boot [] [] None) "/srv/www" "README");
    vm_compute; reflexivity.
Defined.

Lemma dotfile_unknown_witness :
  guess_content_type "/home/user/.pdf" (Fake.boot [] [] None)
  = (Return None,
     emit (unknown_type_warning "/home/user/.pdf") (Fake.boot [] [] None)).
Proof.
  apply (dotfile_unknown (Fake.boot [] [] None) "/home/user" "." "pdf");
    try (vm_compute; reflexivity).
  discriminate.
Defined.

Lemma data_scheme_unknown_witness :
  guess_content_type "data:report.pdf" (Fake.boot [] [] None)
  = (Return None,
     emit (unknown_type_warning "data:report.pdf") (Fake.boot [] [] None)).
Proof.
  apply (data_scheme_unknown (Fake.boot [] [] None) "report.pdf").
  vm_compute. reflexivity.
Defined.
